(** * Goose dashboard: the terminal and web front-ends of the goose agent

    A shallow embedding of [goose-tui.py] and [goose-web.py].  Both programs
    drive the external [goose] command line agent through [subprocess] and
    read the agent's [sessions.db] through [sqlite3]; neither of them writes
    to that database.

    Layout: the embedding comes first (Python values and builtins, the
    operating system and the database as the programs observe them, then the
    two front-ends), the properties of the embedding follow. *)

From Stdlib Require Import NArith ZArith String Ascii List Lia.
From stdpp Require Import base decidable option list sorting gmap.

Set Default Proof Using "Type".
Local Open Scope N_scope.

(** ** Python values *)

Module Py.

(** A Python [str] is a sequence of Unicode code points. *)
Definition str := list N.

(** [u "abc"] is the [str] of an ASCII literal of the source. *)
Definition u (s : string) : str :=
  (λ c, N_of_ascii c) <$> list_ascii_of_string s.

(** [str.isspace] on one code point: the characters [str.strip] removes. *)
Definition isspace (c : N) : bool :=
  ((9 <=? c) && (c <=? 13)) || ((28 <=? c) && (c <=? 32))
  || (c =? 133) || (c =? 160) || (c =? 5760)
  || ((8192 <=? c) && (c <=? 8202))
  || (c =? 8232) || (c =? 8233) || (c =? 8239) || (c =? 8287) || (c =? 12288).

Fixpoint lstrip (s : str) : str :=
  match s with
  | [] => []
  | c :: s' => if isspace c then lstrip s' else s
  end.

Definition rstrip (s : str) : str := reverse (lstrip (reverse s)).

(** [s.strip()] *)
Definition strip (s : str) : str := rstrip (lstrip s).

(** [sep.join(parts)] *)
Fixpoint join (sep : str) (parts : list str) : str :=
  match parts with
  | [] => []
  | [p] => p
  | p :: rest => p ++ sep ++ join sep rest
  end.

(** Truth value of a [str]: the empty string is false. *)
Definition truthy (s : str) : bool :=
  match s with [] => false | _ :: _ => true end.

(** [x or y] on strings where [x] may be [None]. *)
Definition or_else (x : option str) (y : str) : str :=
  match x with
  | Some s => if truthy s then s else y
  | None => y
  end.

(** Comparison of two strings, code point by code point; SQLite's BINARY
    collation on the UTF-8 encoding orders text the same way. *)
Fixpoint leb (s1 s2 : str) : bool :=
  match s1, s2 with
  | [], _ => true
  | _ :: _, [] => false
  | c1 :: s1', c2 :: s2' =>
      if c1 <? c2 then true else if c1 =? c2 then leb s1' s2' else false
  end.

Definition ltb (s1 s2 : str) : bool := negb (leb s2 s1).

(** The exceptions the two programs catch.  [str(e)] is left to Python:
    an exception is kept as the object that was raised. *)
Inductive exn :=
  | FileNotFoundError (msg : str)
  | TimeoutExpired (cmd : list str) (timeout : N)
  | SqliteError (msg : str)          (* sqlite3.Error and its subclasses *)
  | OtherException (msg : str).

(** [str(n)] for a count: its decimal digits. *)
Fixpoint uint_str (d : Decimal.uint) : str :=
  match d with
  | Decimal.Nil => []
  | Decimal.D0 d => 48 :: uint_str d
  | Decimal.D1 d => 49 :: uint_str d
  | Decimal.D2 d => 50 :: uint_str d
  | Decimal.D3 d => 51 :: uint_str d
  | Decimal.D4 d => 52 :: uint_str d
  | Decimal.D5 d => 53 :: uint_str d
  | Decimal.D6 d => 54 :: uint_str d
  | Decimal.D7 d => 55 :: uint_str d
  | Decimal.D8 d => 56 :: uint_str d
  | Decimal.D9 d => 57 :: uint_str d
  end.

Definition str_of_nat (n : nat) : str := uint_str (Nat.to_uint n).

End Py.

Import Py.

(** ** The agent's database, as [sqlite3] shows it *)

Module Sqlite.

(** [sessions(name PRIMARY KEY, created_at, last_accessed, directory)] *)
Record session_row := SessionRow {
  name : str;
  created_at : str;
  last_accessed : str;
  directory : option str;
}.

(** [messages(session_name, role, content, timestamp)] *)
Record message_row := MessageRow {
  session_name : str;
  role : str;
  content : str;
  timestamp : str;
}.

(** What is at the path of [sessions.db].  A file is described by what a
    scan of each table gives: the rows in rowid order, the order in which
    they were inserted, or the error [sqlite3] raises (no such table, a
    malformed image, a locked or unreadable file). *)
Inductive store :=
  | NoFile (parent_exists : bool)
  | File (sessions : exn + list session_row)
         (messages : exn + list message_row).

(** [path.exists()] *)
Definition exists_ (st : store) : bool :=
  match st with NoFile _ => false | File _ _ => true end.

Definition no_such_table (t : string) : exn :=
  SqliteError (u "no such table: " ++ u t).
Definition unable_to_open : exn :=
  SqliteError (u "unable to open database file").

(** [sqlite3.connect(path)]: a missing file is created empty when its
    directory exists, and cannot be opened otherwise. *)
Definition connect (st : store) : store :=
  match st with
  | NoFile true =>
      File (inl (no_such_table "sessions")) (inl (no_such_table "messages"))
  | _ => st
  end.

Definition scan_sessions (st : store) : exn + list session_row :=
  match st with
  | NoFile _ => inl unable_to_open
  | File s _ => s
  end.

Definition scan_messages (st : store) : exn + list message_row :=
  match st with
  | NoFile _ => inl unable_to_open
  | File _ m => m
  end.

(** [ORDER BY]: the rows of a scan, sorted by a key.  [before r1 r2] says
    that the key of [r1] sorts strictly before the key of [r2].  Rows with
    equal keys come back in the order of the scan, the order in which they
    were inserted: [insert_row] puts a row in front of the first row that
    does not sort strictly before it, and [order_by] inserts the rows of
    the scan from the last to the first. *)
Fixpoint insert_row {A} (before : A → A → bool) (r : A) (sorted : list A)
  : list A :=
  match sorted with
  | [] => [r]
  | r' :: rest =>
      if before r' r then r' :: insert_row before r rest else r :: sorted
  end.

Definition order_by {A} (before : A → A → bool) (rows : list A) : list A :=
  foldr (insert_row before) [] rows.

(** [timestamp ASC] and [last_accessed DESC] *)
Definition timestamp_asc (r1 r2 : message_row) : bool :=
  ltb (timestamp r1) (timestamp r2).
Definition last_accessed_desc (r1 r2 : session_row) : bool :=
  ltb (last_accessed r2) (last_accessed r1).

(** [SELECT role, content, timestamp FROM messages
     WHERE session_name = ? ORDER BY timestamp ASC] *)
Definition select_history (name : str) (table : list message_row)
  : list (str * str * str) :=
  (λ r, (role r, content r, timestamp r))
    <$> order_by timestamp_asc (filter (λ r, session_name r = name) table).

(** [SELECT name, created_at, last_accessed, directory FROM sessions
     ORDER BY last_accessed DESC] *)
Definition select_sessions (table : list session_row)
  : list (str * str * str * option str) :=
  (λ r, (name r, created_at r, last_accessed r, directory r))
    <$> order_by last_accessed_desc table.

(** [SELECT name, created_at, last_accessed FROM sessions
     ORDER BY last_accessed DESC LIMIT 10] *)
Definition select_recent (table : list session_row)
  : list (str * str * str) :=
  (λ r, (name r, created_at r, last_accessed r))
    <$> take 10 (order_by last_accessed_desc table).

End Sqlite.

(** ** The operating system, as [subprocess] and [datetime] show it *)

Module Os.

(** A child process that has run to its end: the lines iterating its
    standard output yields (each still carries its line break), the text on
    its standard error, its exit code and how long it ran. *)
Record process := Process {
  stdout : list str;
  stderr : str;
  returncode : Z;
  duration : N;
}.

(** [subprocess.Popen(cmd, ...)] either raises or starts a child. *)
Inductive popen_result :=
  | PopenRaises (e : exn)
  | PopenOk (p : process).

(** The formats in which the programs read the clock:
    [strftime("%H:%M:%S")], [strftime('%Y%m%d_%H%M%S')] and [isoformat()]. *)
Inductive time_format := HMS | YmdHMS | Iso.

(** The machine the programs run on: what starting a command line does,
    and what the k-th reading of [datetime.now()] shows in each format. *)
Record os := Machine {
  popen : list str → popen_result;
  now : time_format → nat → str;
}.

(** [name or f"session_{datetime.now().strftime('%Y%m%d_%H%M%S')}"] when
    the clock has been read [k] times; the clock is read only when [name]
    is [None] or empty. *)
Definition name_or_now (o : os) (name : option str) (k : nat) : str :=
  or_else name (u "session_" ++ now o YmdHMS k).

(** [subprocess.run(cmd, capture_output=True, text=True, timeout=t)]:
    the child is started and awaited; when it is still running after [t]
    it is killed and [TimeoutExpired] is raised.  The flag tells whether a
    child was started. *)
Definition run (o : os) (cmd : list str) (t : N) : bool * (exn + process) :=
  match popen o cmd with
  | PopenRaises e => (false, inl e)
  | PopenOk p =>
      if t <? duration p then (true, inl (TimeoutExpired cmd t))
      else (true, inr p)
  end.

End Os.

Import Os.

(** ** [goose-tui.py] *)

Module Tui.

(** The text of a chat bubble: a string value, or one of the source's
    message templates with the values it interpolates. *)
Inductive text :=
  | Str (s : str)
  | Initializing                      (* "Initializing Goose CLI..." *)
  | Detected (version : str)          (* "Goose CLI {version} detected" *)
  | NotFound                          (* "Goose CLI not found!..." *)
  | MountError (e : exn)              (* on_mount: "Error: {e}" *)
  | Started (name : str)              (* "Started new session: {name}" *)
  | SessionInitialized (name : str)   (* "Goose session '{name}' initialized" *)
  | SessionInitError (e : exn)        (* "Session init error: {e}" *)
  | Thinking                          (* "Goose is thinking..." *)
  | StderrWarning (stderr : str)      (* send_to_goose: "Error: {stderr}" *)
  | TimedOut                          (* "Request timed out" *)
  | SendError (e : exn)               (* send_to_goose: "Error: {e}" *)
  | NoDatabase                        (* "No sessions database found" *)
  | LoadedSessions (n : nat)          (* "Loaded {n} recent sessions" *)
  | DbError (e : exn)                 (* "DB error: {e}" *)
  | LoadSessionsError (e : exn)       (* "Error loading sessions: {e}" *)
  | LoadedHistory (n : nat) (name : str)
                                      (* "Loaded {n} messages from '{name}'" *)
  | LoadHistoryError (e : exn).       (* "Error loading history: {e}" *)

(** [class ChatBubble(Static)] *)
Record ChatBubble := Bubble {
  role : str;
  content : text;
  timestamp : str;
}.

(** One dict of [chat_history]. *)
Record entry := Entry {
  entry_role : str;
  entry_content : str;
  entry_timestamp : str;
}.

(** One [ListItem] of the sidebar: the session name and its last access. *)
Record ListItem := Item {
  item_name : str;
  item_accessed : str;
}.

(** The application and the world it acts on. [spawned] lists the command
    lines for which a child process was started, [clock] counts the
    readings of [datetime.now()]. *)
Record tui := App {
  current_session_name : str;
  chat_history : list entry;
  chat_messages : list ChatBubble;     (* children of #chat-messages *)
  session_list : list ListItem;        (* children of #session-list *)
  session_status : str;                (* name shown in #session-status *)
  chat_input : str;                    (* value of #chat-input *)
  sessions_db : Sqlite.store;
  spawned : list (list str);
  clock : nat;
}.

Definition with_session (n : str) (a : tui) : tui :=
  App n (chat_history a) (chat_messages a) (session_list a) (session_status a)
      (chat_input a) (sessions_db a) (spawned a) (clock a).
Definition with_history (h : list entry) (a : tui) : tui :=
  App (current_session_name a) h (chat_messages a) (session_list a)
      (session_status a) (chat_input a) (sessions_db a) (spawned a) (clock a).
Definition with_messages (m : list ChatBubble) (a : tui) : tui :=
  App (current_session_name a) (chat_history a) m (session_list a)
      (session_status a) (chat_input a) (sessions_db a) (spawned a) (clock a).
Definition with_list (l : list ListItem) (a : tui) : tui :=
  App (current_session_name a) (chat_history a) (chat_messages a) l
      (session_status a) (chat_input a) (sessions_db a) (spawned a) (clock a).
Definition with_status (s : str) (a : tui) : tui :=
  App (current_session_name a) (chat_history a) (chat_messages a)
      (session_list a) s (chat_input a) (sessions_db a) (spawned a) (clock a).
Definition with_input (s : str) (a : tui) : tui :=
  App (current_session_name a) (chat_history a) (chat_messages a)
      (session_list a) (session_status a) s (sessions_db a) (spawned a)
      (clock a).
Definition with_db (d : Sqlite.store) (a : tui) : tui :=
  App (current_session_name a) (chat_history a) (chat_messages a)
      (session_list a) (session_status a) (chat_input a) d (spawned a)
      (clock a).
Definition with_spawned (s : list (list str)) (a : tui) : tui :=
  App (current_session_name a) (chat_history a) (chat_messages a)
      (session_list a) (session_status a) (chat_input a) (sessions_db a) s
      (clock a).
Definition tick (a : tui) : tui :=
  App (current_session_name a) (chat_history a) (chat_messages a)
      (session_list a) (session_status a) (chat_input a) (sessions_db a)
      (spawned a) (S (clock a)).

(** Record that [run] or [Popen] started a child for [cmd]. *)
Definition started (cmd : list str) (child : bool) (a : tui) : tui :=
  if child then with_spawned (spawned a ++ [cmd]) a else a.

Section methods.
Context (o : os).

Definition mount_bubble (r : string) (c : text) (a : tui) : tui :=
  let timestamp := now o HMS (clock a) in
  tick (with_messages (chat_messages a ++ [Bubble (u r) c timestamp]) a).

Definition add_system_message (message : text) (a : tui) : tui :=
  mount_bubble "system" message a.

Definition add_user_message (message : str) (a : tui) : tui :=
  let timestamp := now o HMS (clock a) in
  let a := mount_bubble "user" (Str message) a in
  with_history (chat_history a ++ [Entry (u "user") message timestamp]) a.

Definition add_goose_message (message : str) (a : tui) : tui :=
  let timestamp := now o HMS (clock a) in
  let a := mount_bubble "assistant" (Str message) a in
  with_history (chat_history a ++ [Entry (u "assistant") message timestamp]) a.

Definition start_new_session (name : option str) (a : tui) : tui :=
  let given := truthy (default [] name) in
  let name := name_or_now o name (clock a) in
  let a := if given then a else tick a in
  let a := with_history [] (with_session name a) in
  let a := with_status name a in
  let a := add_system_message (Started name) a in
  let cmd := [u "goose"; u "session"; u "start"; u "-n"; name] in
  let '(child, result) := run o cmd 10 in
  let a := started cmd child a in
  match result with
  | inr _ => add_system_message (SessionInitialized name) a
  | inl e => add_system_message (SessionInitError e) a
  end.

(** The loop [for line in process.stdout] of [send_to_goose]. *)
Fixpoint read_lines (stdout : list str) (response_lines : list str)
  : list str :=
  match stdout with
  | [] => response_lines
  | line :: rest =>
      let line := strip line in
      if truthy line then read_lines rest (response_lines ++ [line])
      else read_lines rest response_lines
  end.

(** "Task completed (no output)", after a check mark. *)
Definition no_output : str := 9989 :: u " Task completed (no output)".

(** The command line of [send_to_goose]: the session is resumed when there
    is a current session, the prompt is run on its own otherwise. *)
Definition command (session_name message : str) : list str :=
  if truthy session_name
  then [u "goose"; u "session"; u "resume"; u "-n"; session_name;
        u "-t"; message]
  else [u "goose"; u "run"; u "-t"; message].

Definition send_to_goose (message : str) (a : tui) : tui :=
  if negb (truthy (strip message)) then a
  else
    let a := add_user_message message a in
    let a := add_system_message Thinking a in
    let cmd := command (current_session_name a) message in
    match popen o cmd with
    | PopenOk process =>
        let a := started cmd true a in
        let response_lines := read_lines (stdout process) [] in
        let full_response := join (u (String "010" "")) response_lines in
        let a :=
          if truthy full_response then add_goose_message full_response a
          else add_goose_message no_output a in
        if negb (returncode process =? 0)%Z then
          let stderr := stderr process in
          if truthy stderr then add_system_message (StderrWarning stderr) a
          else a
        else a
    | PopenRaises (TimeoutExpired _ _) => add_system_message TimedOut a
    | PopenRaises e => add_system_message (SendError e) a
    end.

Definition load_recent_sessions (a : tui) : tui :=
  if negb (Sqlite.exists_ (sessions_db a)) then
    add_system_message NoDatabase a
  else
    let a := with_db (Sqlite.connect (sessions_db a)) a in
    match Sqlite.scan_sessions (sessions_db a) with
    | inr table =>
        let sessions := Sqlite.select_recent table in
        let a :=
          with_list
            (session_list a
               ++ ((λ '(name, created, accessed), Item name accessed)
                     <$> sessions)) a in
        if bool_decide (sessions = []) then a
        else add_system_message (LoadedSessions (length sessions)) a
    | inl (SqliteError msg) => add_system_message (DbError (SqliteError msg)) a
    | inl e => add_system_message (LoadSessionsError e) a
    end.

Definition load_session_history (session_name : str) (a : tui) : tui :=
  let a := with_db (Sqlite.connect (sessions_db a)) a in
  match Sqlite.scan_messages (sessions_db a) with
  | inr table =>
      let messages := Sqlite.select_history session_name table in
      let a :=
        with_messages
          ((λ '(role, content, timestamp), Bubble role (Str content) timestamp)
             <$> messages) a in
      let a := with_session session_name a in
      add_system_message (LoadedHistory (length messages) session_name) a
  | inl e => add_system_message (LoadHistoryError e) a
  end.

Definition handle_send_message (a : tui) : tui :=
  let message := strip (chat_input a) in
  if truthy message then with_input [] (send_to_goose message a) else a.

Definition on_mount (a : tui) : tui :=
  let a := add_system_message Initializing a in
  let cmd := [u "goose"; u "--version"] in
  let '(child, result) := run o cmd 5 in
  let a := started cmd child a in
  match result with
  | inr result =>
      let version := strip (concat (stdout result)) in
      let a := add_system_message (Detected version) a in
      let a := load_recent_sessions a in
      start_new_session (Some (u "default")) a
  | inl (FileNotFoundError _) => add_system_message NotFound a
  | inl e => add_system_message (MountError e) a
  end.

(** The text of [action_extensions] and of [action_help]. *)
Definition extensions : str :=
  join [10]
    [[];
     [128268] ++ u " Available Goose Extensions:";
     [];
     u "Built-in:";
     u "  " ++ [8226] ++ u " developer - Code analysis, debugging";
     u "  " ++ [8226] ++ u " github - GitHub operations";
     u "  " ++ [8226] ++ u " computer - System control";
     u "  " ++ [8226] ++ u " screen - Screen capture/OCR";
     [];
     u "Usage: Mention in your prompt";
     u "Example: " ++ [34]
       ++ u "Using the developer extension, analyze this code..." ++ [34];
     []].

Definition help_text : str :=
  join [10]
    [[];
     [129727] ++ u " GOOSE CHAT TUI - HELP";
     [];
     u "KEYBOARD SHORTCUTS:";
     u "  Ctrl+N - New chat session";
     u "  Ctrl+S - Save current session";
     u "  Ctrl+R - Resume last session";
     u "  Ctrl+H - Show history";
     u "  Ctrl+E - List extensions";
     u "  Ctrl+C - Quit";
     u "  Enter  - Send message";
     [];
     u "FEATURES:";
     u "  " ++ [8226] ++ u " Chat bubbles show conversation flow";
     u "  " ++ [8226] ++ u " Sessions auto-save to SQLite DB";
     u "  " ++ [8226] ++ u " Load previous chats from sidebar";
     u "  " ++ [8226] ++ u " MCP extensions available";
     u "  " ++ [8226] ++ u " Multi-turn conversations";
     [];
     u "TIPS:";
     u "  " ++ [8226] ++ u " Be specific in your prompts";
     u "  " ++ [8226] ++ u " Sessions persist across restarts";
     u "  " ++ [8226] ++ u " Use extensions for specialized tasks";
     []].

Definition clear_chat (a : tui) : tui :=
  let a := with_messages [] a in
  let a := with_history [] a in
  add_system_message (Str ([128465; 65039] ++ u " Chat cleared")) a.

Definition action_new_session (a : tui) : tui :=
  let name := u "chat_" ++ now o YmdHMS (clock a) in
  start_new_session (Some name) (tick a).

Definition action_save_session (a : tui) : tui :=
  if truthy (current_session_name a) then
    add_system_message
      (Str ([128190] ++ u " Session '" ++ current_session_name a
              ++ u "' auto-saved")) a
  else
    add_system_message (Str ([9888; 65039] ++ u " No active session to save")) a.

Definition action_resume_session (a : tui) : tui :=
  add_system_message (Str ([9654; 65039] ++ u " Resuming last session...")) a.

Definition action_show_history (a : tui) : tui :=
  match chat_history a with
  | _ :: _ =>
      let count := length (chat_history a) in
      add_system_message
        (Str ([128203] ++ u " Current session has " ++ str_of_nat count
                ++ u " messages")) a
  | [] =>
      add_system_message (Str ([128203] ++ u " No history in current session")) a
  end.

Definition action_extensions (a : tui) : tui :=
  add_system_message (Str extensions) a.

Definition action_help (a : tui) : tui :=
  add_system_message (Str help_text) a.

Definition on_button_pressed (button_id : str) (a : tui) : tui :=
  if bool_decide (button_id = u "btn-send") then handle_send_message a
  else if bool_decide (button_id = u "btn-new") then action_new_session a
  else if bool_decide (button_id = u "btn-save") then action_save_session a
  else if bool_decide (button_id = u "btn-load") then
    add_system_message
      (Str ([128194] ++ u " Select a session from the sidebar to load")) a
  else if bool_decide (button_id = u "btn-history") then action_show_history a
  else if bool_decide (button_id = u "btn-ext") then
    add_system_message
      (Str ([128268] ++ u " Extensions: developer, github, computer, screen"))
      a
  else if bool_decide (button_id = u "btn-clear") then clear_chat a
  else a.

Definition on_input_submitted (input_id : str) (a : tui) : tui :=
  if bool_decide (input_id = u "chat-input") then handle_send_message a
  else a.

(** [BINDINGS]: the action a key runs; [None] when the key quits the
    application. A key without a binding does nothing. *)
Definition key_pressed (key : str) (a : tui) : option tui :=
  if bool_decide (key = u "ctrl+n") then Some (action_new_session a)
  else if bool_decide (key = u "ctrl+s") then Some (action_save_session a)
  else if bool_decide (key = u "ctrl+r") then Some (action_resume_session a)
  else if bool_decide (key = u "ctrl+e") then Some (action_extensions a)
  else if bool_decide (key = u "ctrl+h") then Some (action_show_history a)
  else if bool_decide (key = u "ctrl+c") then None
  else if bool_decide (key = u "f1") then Some (action_help a)
  else Some a.

End methods.

(** What reaches the application once it is mounted: a button, the Enter
    key in an input field, or a key press.  The application defines no
    handler for a selection in the sidebar. *)
Inductive event :=
  | ButtonPressed (button_id : str)
  | InputSubmitted (input_id : str)
  | KeyPressed (key : str).

Definition dispatch (o : os) (e : event) (a : tui) : option tui :=
  match e with
  | ButtonPressed button_id => Some (on_button_pressed o button_id a)
  | InputSubmitted input_id => Some (on_input_submitted o input_id a)
  | KeyPressed key => key_pressed o key a
  end.

End Tui.

(** ** [goose-web.py] *)

Module Web.

(** JSON values of request and response bodies. *)
#[local] Unset Elimination Schemes.
Inductive json :=
  | JNull
  | JBool (b : bool)
  | JInt (n : Z)
  | JFloat (bits : N)                    (* a float, by its 64 bits *)
  | JStr (s : str)
  | JList (l : list json)
  | JDict (l : list (str * json)).
#[local] Set Elimination Schemes.

(** The text of an ['error'] event: [str(e)], or
    [f'Failed to create session: {e}']. *)
Inductive error_text :=
  | StrOf (e : exn)
  | FailedToCreate (e : exn).

(** The events the server sends over the socket. *)
Inductive event :=
  | status (message : str)
  | message (role content timestamp : str)
  | partial_response (content : str)
  | session_created (name : str)            (* with 'status': 'success' *)
  | error (message : error_text).

(** [emit(...)] inside a handler answers the client whose event is being
    handled; [socketio.emit(...)] goes to every connected client. *)
Inductive audience := Client | Everyone.

(** The payload of ['send_message'] and of ['new_session']; a key may be
    missing. *)
Record send_message := SendMessage {
  data_message : option str;
  data_session : option str;
}.
Record new_session := NewSession {
  data_name : option str;
}.

(** The body of an HTTP response. *)
Inductive body :=
  | Config (config : gmap str json)          (* jsonify(config) *)
  | ConfigSaved (config : gmap str json)     (* "status": "success", "config" *)
  | Sessions (sessions : list (str * str * str * option str))
                                   (* name, created, accessed, directory *)
  | Messages (messages : list (str * str * str))
                                             (* role, content, timestamp *)
  | Error (e : exn)                          (* "error": str(e) *)
  | InternalServerError.    (* Flask's answer to an exception nothing catches *)

Definition response : Type := body * nat.

(** A thread started by [handle_message], running [run_goose]: before
    [Popen], or inside the loop over the child's output with the lines not
    yet read and [response_lines] so far. *)
Inductive thread :=
  | Created (session_name message : str)
  | Reading (session_name message : str)
            (unread : list str) (response_lines : list str).

(** The server and the world it acts on. [sent] is what went over the
    socket, oldest first; [spawned] and [clock] are as in the terminal
    program. *)
Record web := Server {
  config : gmap str json;
  config_file : option (gmap str json);       (* config.json, when it exists *)
  threads : list thread;
  sent : list (audience * event);
  sessions_db : Sqlite.store;
  spawned : list (list str);
  clock : nat;
}.

Definition with_config (c : gmap str json) (s : web) : web :=
  Server c (config_file s) (threads s) (sent s) (sessions_db s) (spawned s)
         (clock s).
Definition with_config_file (f : option (gmap str json)) (s : web) : web :=
  Server (config s) f (threads s) (sent s) (sessions_db s) (spawned s)
         (clock s).
Definition with_threads (t : list thread) (s : web) : web :=
  Server (config s) (config_file s) t (sent s) (sessions_db s) (spawned s)
         (clock s).
Definition with_sent (e : list (audience * event)) (s : web) : web :=
  Server (config s) (config_file s) (threads s) e (sessions_db s) (spawned s)
         (clock s).
Definition with_spawned (c : list (list str)) (s : web) : web :=
  Server (config s) (config_file s) (threads s) (sent s) (sessions_db s) c
         (clock s).
Definition tick (s : web) : web :=
  Server (config s) (config_file s) (threads s) (sent s) (sessions_db s)
         (spawned s) (S (clock s)).

Definition emit (to : audience) (e : event) (s : web) : web :=
  with_sent (sent s ++ [(to, e)]) s.

Definition started (cmd : list str) (child : bool) (s : web) : web :=
  if child then with_spawned (spawned s ++ [cmd]) s else s.

(** [load_config()] *)
Definition load_config (file : option (gmap str json)) : gmap str json :=
  match file with
  | Some c => c
  | None =>
      <[u "provider" := JStr (u "openai")]>
        (<[u "model" := JStr (u "gpt-4")]>
           (<[u "port" := JInt 8080]>
              (<[u "host" := JStr (u "localhost")]> ∅)))
  end.

(** [api_config], method GET and method POST with a JSON object. *)
Definition api_config_get (s : web) : web * response :=
  (s, (Config (config s), 200%nat)).

Definition api_config_post (data : gmap str json) (s : web) : web * response :=
  let s := with_config (data ∪ config s) s in      (* config.update(data) *)
  let s := with_config_file (Some (config s)) s in (* json.dump(config, f) *)
  (s, (ConfigSaved (config s), 200%nat)).

(** [request.json] can be any JSON value.  The [dict] an object is parsed
    to: of two members with the same name the later one stays.  [keys] are
    its keys in the order of iteration, the order in which they first
    occur. *)
Definition dict (items : list (str * json)) : gmap str json :=
  foldl (λ d '(k, v), <[k := v]> d) ∅ items.

Definition keys (items : list (str * json)) : list str :=
  foldl (λ ks '(k, _), if bool_decide (k ∈ ks) then ks else ks ++ [k])
    [] items.

(** What [config.update(data)] raises when [data] is no [dict]. *)
Inductive update_error :=
  | not_iterable        (* TypeError: data is null, a boolean or a number *)
  | not_a_sequence      (* TypeError: cannot convert dictionary update
                           sequence element to a sequence *)
  | wrong_length        (* ValueError: dictionary update sequence element
                           has length n; 2 is required *)
  | unhashable.         (* TypeError: unhashable type *)

(** One element of the sequence [config.update] reads: a key and a value
    when the element is a sequence of two items (a list of two values, a
    string of two characters, the two keys of an object).  A list or an
    object cannot be a key.  Null, a boolean or a number can, but with
    such a key [config] is no JSON object any more: the embedding stops
    there. *)
Inductive element :=
  | key_value (k : str) (v : json)
  | other_key
  | raises (e : update_error).

Definition read_element (x : json) : element :=
  match x with
  | JList [k; v] =>
      match k with
      | JStr k => key_value k v
      | JNull | JBool _ | JInt _ | JFloat _ => other_key
      | JList _ | JDict _ => raises unhashable
      end
  | JList _ => raises wrong_length
  | JStr [c1; c2] => key_value [c1] (JStr [c2])
  | JStr _ => raises wrong_length
  | JDict items =>
      match keys items with
      | [k1; k2] => key_value k1 (JStr k2)
      | _ => raises wrong_length
      end
  | JNull | JBool _ | JInt _ | JFloat _ => raises not_a_sequence
  end.

(** [config.update(data)] for a sequence: the elements are read in turn,
    and the keys set so far stay when one of them raises.  [None]: a key
    that is no string was set. *)
Fixpoint update_pairs (data : list json) (config : gmap str json)
  : option (gmap str json * option update_error) :=
  match data with
  | [] => Some (config, None)
  | x :: rest =>
      match read_element x with
      | key_value k v => update_pairs rest (<[k := v]> config)
      | other_key => None
      | raises e => Some (config, Some e)
      end
  end.

(** [config.update(data)]: the configuration after it, and the exception
    when it raised.  A string is the sequence of its characters. *)
Definition update (data : json) (config : gmap str json)
  : option (gmap str json * option update_error) :=
  match data with
  | JDict items => Some (dict items ∪ config, None)
  | JList elements => update_pairs elements config
  | JStr s => update_pairs ((λ c, JStr [c]) <$> s) config
  | JNull | JBool _ | JInt _ | JFloat _ => Some (config, Some not_iterable)
  end.

(** [api_config] with [request.method] and, for POST, [request.json].  An
    exception of [config.update] leaves the handler before the file is
    written, and Flask answers 500. *)
Inductive method := GET | POST (data : json).

Definition api_config (m : method) (s : web) : option (web * response) :=
  match m with
  | GET => Some (api_config_get s)
  | POST data =>
      match update data (config s) with
      | Some (c, None) =>
          let s := with_config c s in
          let s := with_config_file (Some (config s)) s in
          Some (s, (ConfigSaved (config s), 200%nat))
      | Some (c, Some _) =>
          Some (with_config c s, (InternalServerError, 500%nat))
      | None => None
      end
  end.

Definition api_sessions (s : web) : web * response :=
  if negb (Sqlite.exists_ (sessions_db s)) then (s, (Sessions [], 200%nat))
  else
    match Sqlite.scan_sessions (Sqlite.connect (sessions_db s)) with
    | inr table => (s, (Sessions (Sqlite.select_sessions table), 200%nat))
    | inl e => (s, (Error e, 500%nat))
    end.

Definition api_session_history (name : str) (s : web) : web * response :=
  if negb (Sqlite.exists_ (sessions_db s)) then (s, (Messages [], 200%nat))
  else
    match Sqlite.scan_messages (Sqlite.connect (sessions_db s)) with
    | inr table => (s, (Messages (Sqlite.select_history name table), 200%nat))
    | inl e => (s, (Error e, 500%nat))
    end.

(** [api_extensions]: name, status and description of each extension. *)
Definition api_extensions : list (str * str * str) :=
  [(u "developer", u "available",
    u "Code analysis, debugging, file operations");
   (u "github", u "available", u "GitHub repository operations");
   (u "computer", u "available", u "System control and automation");
   (u "screen", u "available", u "Screen capture and OCR")].

Section handlers.
Context (o : os).

Definition resume (session_name message : str) : list str :=
  [u "goose"; u "session"; u "resume"; u "-n"; session_name; u "-t"; message].

(** One turn of the loop [for line in process.stdout] of [run_goose]. *)
Definition read_line (line : str) (response_lines : list str) (s : web)
  : list str * web :=
  let line := strip line in
  if truthy line
  then (response_lines ++ [line], emit Everyone (partial_response line) s)
  else (response_lines, s).

Fixpoint read_lines (stdout : list str) (response_lines : list str) (s : web)
  : list str * web :=
  match stdout with
  | [] => (response_lines, s)
  | line :: rest =>
      let '(response_lines, s) := read_line line response_lines s in
      read_lines rest response_lines s
  end.

(** What [run_goose] does once the child has ended. *)
Definition complete (response_lines : list str) (s : web) : web :=
  let full_response := join (u (String "010" "")) response_lines in
  tick (emit Everyone
          (message (u "assistant") full_response (now o Iso (clock s))) s).

(** [run_goose], when nothing else runs between its steps. *)
Definition run_goose (session_name message : str) (s : web) : web :=
  let cmd := resume session_name message in
  match popen o cmd with
  | PopenOk process =>
      let s := started cmd true s in
      let '(response_lines, s) := read_lines (stdout process) [] s in
      complete response_lines s
  | PopenRaises e => emit Everyone (error (StrOf e)) s
  end.

(** [handle_connect] *)
Definition handle_connect (s : web) : web :=
  emit Client (status (u "Connected to Goose Dashboard")) s.

(** The handler up to [thread.start()]: [None] when it returns early. *)
Definition accept (data : send_message) (s : web) : option (str * str * web) :=
  let message_ := default [] (data_message data) in
  let session_name := default (u "default") (data_session data) in
  if negb (truthy message_) then None
  else
    let s :=
      tick (emit Client
              (message (u "user") message_ (now o Iso (clock s))) s) in
    Some (session_name, message_, s).

(** [handle_message] with its thread run to the end at once. *)
Definition handle_message (data : send_message) (s : web) : web :=
  match accept data s with
  | None => s
  | Some (session_name, message_, s) => run_goose session_name message_ s
  end.

Definition handle_new_session (data : new_session) (s : web) : web :=
  let given := truthy (default [] (data_name data)) in
  let name := name_or_now o (data_name data) (clock s) in
  let s := if given then s else tick s in
  let cmd := [u "goose"; u "session"; u "start"; u "-n"; name] in
  let '(child, result) := run o cmd 10 in
  let s := started cmd child s in
  match result with
  | inr _ => emit Client (session_created name) s
  | inl e => emit Client (error (FailedToCreate e)) s
  end.

(** The server with its threads: one client event is handled, or one
    thread takes its next step.  Threads are scheduled in any order. *)
Definition replace_thread (i : nat) (t : option thread) (s : web) : web :=
  match t with
  | Some t => with_threads (<[i := t]> (threads s)) s
  | None => with_threads (delete i (threads s)) s
  end.

Inductive step : web → web → Prop :=
  | step_send_message data s session_name message_ s' :
      accept data s = Some (session_name, message_, s') →
      step s (with_threads (threads s' ++ [Created session_name message_]) s')
  | step_send_nothing data s :
      accept data s = None →
      step s s
  | step_popen i s session_name message_ process :
      threads s !! i = Some (Created session_name message_) →
      popen o (resume session_name message_) = PopenOk process →
      step s (replace_thread i
                (Some (Reading session_name message_ (stdout process) []))
                (started (resume session_name message_) true s))
  | step_popen_raises i s session_name message_ e :
      threads s !! i = Some (Created session_name message_) →
      popen o (resume session_name message_) = PopenRaises e →
      step s (replace_thread i None (emit Everyone (error (StrOf e)) s))
  | step_read i s session_name message_ line unread response_lines :
      threads s !! i
        = Some (Reading session_name message_ (line :: unread)
                  response_lines) →
      step s (let '(response_lines', s') := read_line line response_lines s in
              replace_thread i
                (Some (Reading session_name message_ unread response_lines'))
                s')
  | step_complete i s session_name message_ response_lines :
      threads s !! i
        = Some (Reading session_name message_ [] response_lines) →
      step s (replace_thread i None (complete response_lines s)).

(** What a client can ask of the server besides ['send_message']: the
    routes and the two other socket events.  [index] and [api_extensions]
    leave the server as it is.  The body of a POST of the configuration is
    any JSON value; [serve] is [None] where [api_config] is. *)
Inductive request :=
  | get_index
  | get_config
  | post_config (data : json)
  | get_sessions
  | get_history (name : str)
  | get_extensions
  | on_connect
  | on_new_session (data : new_session).

Definition serve (r : request) (s : web) : option web :=
  match r with
  | get_index => Some s
  | get_config => fst <$> api_config GET s
  | post_config data => fst <$> api_config (POST data) s
  | get_sessions => Some (api_sessions s).1
  | get_history name => Some (api_session_history name s).1
  | get_extensions => Some s
  | on_connect => Some (handle_connect s)
  | on_new_session data => Some (handle_new_session data s)
  end.

(** The server at work: it serves a request, or one of [step]. *)
Inductive run : web → web → Prop :=
  | run_request r s s' : serve r s = Some s' → run s s'
  | run_step s s' : step s s' → run s s'.

End handlers.

End Web.

(** * Vocabulary of the properties *)

(** The messages of a session in the order they were appended: the rows of
    the table that carry its name, in rowid order. *)
Definition appended (name : str) (table : list Sqlite.message_row)
  : list (str * str * str) :=
  (λ r, (Sqlite.role r, Sqlite.content r, Sqlite.timestamp r))
    <$> filter (λ r, Sqlite.session_name r = name) table.

(** Timestamps of [(role, content, timestamp)] triples: never decreasing. *)
Definition ascending : relation (str * str * str) := λ m1 m2, leb m1.2 m2.2.

(** The bubble [load_session_history] mounts for one row of the history. *)
Definition bubble_of (m : str * str * str) : Tui.ChatBubble :=
  let '(role, content, timestamp) := m in
  Tui.Bubble role (Tui.Str content) timestamp.

(** A web server and a terminal application that have done nothing yet. *)
Definition fresh_server (db : Sqlite.store) : Web.web :=
  Web.Server (Web.load_config None) None [] [] db [] 0.
Definition fresh_app (db : Sqlite.store) : Tui.tui :=
  Tui.App [] [] [] [] [] [] db [] 0.

(** Messages of session "demo" whose timestamps follow the order of
    insertion; in [one_second] three of them carry the same timestamp. *)
Definition in_order : list Sqlite.message_row :=
  [Sqlite.MessageRow (u "demo") (u "user") (u "hello")
     (u "2024-05-01T10:00:01");
   Sqlite.MessageRow (u "other") (u "user") (u "hi")
     (u "2024-05-01T10:00:02");
   Sqlite.MessageRow (u "demo") (u "assistant") (u "done")
     (u "2024-05-01T10:00:05")].

Definition one_second : list Sqlite.message_row :=
  [Sqlite.MessageRow (u "demo") (u "user") (u "hello")
     (u "2024-05-01T10:00:01");
   Sqlite.MessageRow (u "other") (u "user") (u "hi")
     (u "2024-05-01T10:00:01");
   Sqlite.MessageRow (u "demo") (u "system") (u "thinking")
     (u "2024-05-01T10:00:01");
   Sqlite.MessageRow (u "demo") (u "assistant") (u "answer")
     (u "2024-05-01T10:00:01");
   Sqlite.MessageRow (u "demo") (u "assistant") (u "done")
     (u "2024-05-01T10:00:05")].

(** Every row of the table, as [(name, created, accessed, directory)]. *)
Definition all_sessions (table : list Sqlite.session_row)
  : list (str * str * str * option str) :=
  (λ r, (Sqlite.name r, Sqlite.created_at r, Sqlite.last_accessed r,
         Sqlite.directory r)) <$> table.

(** Last access never increasing along the list. *)
Definition newest_first : relation (str * str * str * option str) :=
  λ s1 s2, leb s2.1.2 s1.1.2.

(** The sidebar item [load_recent_sessions] appends for one session. *)
Definition item_of (s : str * str * str * option str) : Tui.ListItem :=
  let '(name, created, accessed, directory) := s in Tui.Item name accessed.

(** Eleven sessions, last accessed on eleven successive days. *)
Definition eleven_sessions : list Sqlite.session_row :=
  (λ k, Sqlite.SessionRow
          (u "session_" ++ [97 + N.of_nat k]) (u "2024-05-01")
          (u "2024-05-" ++ [48 + N.of_nat ((10 + k) / 10);
                            48 + N.of_nat ((10 + k) mod 10)]) None)
    <$> seq 0 11.

(** The file is missing, or scanning its tables raises. *)
Inductive unavailable : Sqlite.store → Prop :=
  | missing b : unavailable (Sqlite.NoFile b)
  | unreadable e1 e2 : unavailable (Sqlite.File (inl e1) (inl e2)).

(** A response that surfaces a warning: it carries an error text. *)
Definition warns (r : Web.response) : Prop :=
  match r.1 with Web.Error _ => True | _ => False end.

(** The notices with which the terminal program reports a store it could
    not read. *)
Definition store_warning (t : Tui.text) : Prop :=
  match t with
  | Tui.NoDatabase | Tui.DbError _ | Tui.LoadSessionsError _
  | Tui.LoadHistoryError _ => True
  | _ => False
  end.

(** The line break between the lines of an aggregated message. *)
Definition newline : str := [10].

(** The captured lines of an invocation, following the specification:
    every output line stripped, the empty ones dropped, in the order of
    emission. *)
Definition captured (stdout : list str) : list str :=
  filter (λ line, truthy line) (strip <$> stdout).

(** The aggregated message, following the specification: the captured
    lines joined by line breaks, and a "no output" sentinel when there is
    none. *)
Definition aggregated (stdout : list str) : str :=
  match captured stdout with
  | [] => Tui.no_output
  | lines => join newline lines
  end.

(** A clock that shows "t0", "t1", ... in every format. *)
Definition counting_clock : time_format → nat → str :=
  λ _ k, u "t" ++ [48 + N.of_nat k].

(** A machine on which goose prints "thinking..." and "done" and exits
    with 0. *)
Definition thinking_goose : os :=
  Machine
    (λ _, PopenOk
            (Process [u "thinking..." ++ [10]; u "done" ++ [10]] [] 0 3))
    counting_clock.

(** A machine on which goose prints one blank line and exits with 0, and
    one on which it prints "partial line", writes "boom" to its standard
    error and exits with 1. *)
Definition silent_goose : os :=
  Machine (λ _, PopenOk (Process [[10]] [] 0 3)) counting_clock.
Definition failing_goose : os :=
  Machine (λ _, PopenOk (Process [u "partial line" ++ [10]] (u "boom") 1 3))
          counting_clock.

(** The client event "send hello to session demo", and a terminal
    application whose current session is "demo". *)
Definition hello_demo : Web.send_message :=
  Web.SendMessage (Some (u "hello")) (Some (u "demo")).
Definition demo_app : Tui.tui :=
  Tui.with_session (u "demo") (fresh_app (Sqlite.NoFile true)).

(** The command line that initializes a session. *)
Definition start_cmd (name : str) : list str :=
  [u "goose"; u "session"; u "start"; u "-n"; name].

(** Two outcomes of [Popen] that differ at most in how long the child
    runs. *)
Definition same_but_duration (r1 r2 : popen_result) : Prop :=
  match r1, r2 with
  | PopenRaises e1, PopenRaises e2 => e1 = e2
  | PopenOk p1, PopenOk p2 =>
      stdout p1 = stdout p2 ∧ stderr p1 = stderr p2
      ∧ returncode p1 = returncode p2
  | _, _ => False
  end.

(** A machine on which every goose command takes eleven time units. *)
Definition slow_goose : os :=
  Machine (λ _, PopenOk (Process [] [] 0 11)) counting_clock.

(** The goose binary cannot be located: starting any goose command line
    raises [FileNotFoundError]. *)
Definition not_installed (o : os) : Prop :=
  ∀ args, ∃ msg,
    popen o (u "goose" :: args) = PopenRaises (FileNotFoundError msg).

(** A machine without goose. *)
Definition no_goose : os :=
  Machine
    (λ _, PopenRaises
            (FileNotFoundError (u "No such file or directory: 'goose'")))
    counting_clock.

(** The server can reach [s] from a state without threads in which nothing
    has been sent. *)
Definition reachable (o : os) (s : Web.web) : Prop :=
  ∃ s0, Web.threads s0 = [] ∧ Web.sent s0 = [] ∧ rtc (Web.step o) s0 s.

(** A thread inside its loop holds the captured lines of the part of its
    own child's output that it has read. *)
Definition thread_of_one_run (o : os) (t : Web.thread) : Prop :=
  match t with
  | Web.Created _ _ => True
  | Web.Reading session_name message_ unread response_lines =>
      ∃ process read,
        popen o (Web.resume session_name message_) = PopenOk process
        ∧ stdout process = read ++ unread
        ∧ response_lines = captured read
  end.

(** An assistant message is the captured output of one child, joined by
    line breaks in the order of emission. *)
Definition reply_of_one_run (o : os) (e : Web.audience * Web.event) : Prop :=
  match e.2 with
  | Web.message role content _ =>
      role = u "assistant" →
      ∃ session_name message_ process,
        popen o (Web.resume session_name message_) = PopenOk process
        ∧ content = join newline (captured (stdout process))
  | _ => True
  end.

(** A machine on which goose answers the prompt "first" with the lines
    "a1" and "a2", and any other prompt with the line "b1". *)
Definition two_prompts : os :=
  Machine
    (λ cmd,
       if bool_decide (cmd = Web.resume (u "demo") (u "first"))
       then PopenOk (Process [u "a1" ++ [10]; u "a2" ++ [10]] [] 0 5)
       else PopenOk (Process [u "b1" ++ [10]] [] 0 5))
    counting_clock.

(** Two prompts for session "demo", and the state of the server after both
    were sent, both children were started, and the threads read "a1", "b1"
    and "a2" in this order. *)
Definition first_demo : Web.send_message :=
  Web.SendMessage (Some (u "first")) (Some (u "demo")).
Definition second_demo : Web.send_message :=
  Web.SendMessage (Some (u "second")) (Some (u "demo")).
Definition both_running : Web.web :=
  Web.Server (Web.load_config None) None
    [Web.Reading (u "demo") (u "first") [] [u "a1"; u "a2"];
     Web.Reading (u "demo") (u "second") [] [u "b1"]]
    [(Web.Client, Web.message (u "user") (u "first") (u "t0"));
     (Web.Client, Web.message (u "user") (u "second") (u "t1"));
     (Web.Everyone, Web.partial_response (u "a1"));
     (Web.Everyone, Web.partial_response (u "b1"));
     (Web.Everyone, Web.partial_response (u "a2"))]
    (Sqlite.NoFile true)
    [Web.resume (u "demo") (u "first"); Web.resume (u "demo") (u "second")]
    2.

(** A thread whose child is running for the session. *)
Definition running (session_name : str) (t : Web.thread) : Prop :=
  match t with
  | Web.Reading n _ _ _ => n = session_name
  | Web.Created _ _ => False
  end.

#[global] Instance running_dec session_name t :
  Decision (running session_name t).
Proof. destruct t; simpl; apply _. Defined.

(** A string without white space at either end. *)
Definition trimmed (s : str) : Prop :=
  (∀ c, head s = Some c → isspace c = false)
  ∧ (∀ c, last s = Some c → isspace c = false).

(** A chat history made of exchanges: a message of the user, alone or
    followed by one answer of the assistant. *)
Inductive exchanges : list Tui.entry → Prop :=
  | exchanges_nil : exchanges []
  | exchanges_question m t h :
      exchanges h → exchanges (Tui.Entry (u "user") m t :: h)
  | exchanges_answer m t r t' h :
      exchanges h →
      exchanges (Tui.Entry (u "user") m t
                   :: Tui.Entry (u "assistant") r t' :: h).

(** One step of the terminal application: it is mounted, or it handles
    an event and goes on. *)
Definition tui_step (o : os) (a a' : Tui.tui) : Prop :=
  a' = Tui.on_mount o a ∨ ∃ e, Tui.dispatch o e a = Some a'.






(** To whom the server addresses an event: the echo of a prompt, the
    connection status and the outcome of a new session to the client that
    asked; partial responses, assistant messages and the errors of an
    invocation to every client. *)
Definition audience_of (e : Web.event) : Web.audience :=
  match e with
  | Web.message role _ _ =>
      if bool_decide (role = u "user") then Web.Client else Web.Everyone
  | Web.partial_response _ => Web.Everyone
  | Web.error (Web.StrOf _) => Web.Everyone
  | Web.error (Web.FailedToCreate _) => Web.Client
  | Web.status _ => Web.Client
  | Web.session_created _ => Web.Client
  end.

Definition well_addressed (e : Web.audience * Web.event) : Prop :=
  e.1 = audience_of e.2.

(** The echo of an accepted prompt, and the event that ends an
    invocation: the assistant message or the error of the thread. *)
Definition question (e : Web.audience * Web.event) : Prop :=
  match e.2 with
  | Web.message role _ _ => role = u "user"
  | _ => False
  end.

Definition final (e : Web.audience * Web.event) : Prop :=
  match e.2 with
  | Web.message role _ _ => role = u "assistant"
  | Web.error (Web.StrOf _) => True
  | _ => False
  end.

#[global] Instance question_dec e : Decision (question e).
Proof. destruct e as [to []]; unfold question; simpl; apply _. Defined.

#[global] Instance final_dec e : Decision (final e).
Proof.
  destruct e as [to [| | | |[]]]; unfold final; simpl; apply _.
Defined.

(** A prompt that is not empty and was echoed to the client that sent
    it. *)
Definition echoed (sent : list (Web.audience * Web.event)) (m : str) : Prop :=
  truthy m ∧ ∃ t, (Web.Client, Web.message (u "user") m t) ∈ sent.

(** The command lines of the web server: a session is started under a
    name that is not empty, or a session is resumed with a prompt that was
    echoed, passed as it is as one argument. *)
Definition server_command (sent : list (Web.audience * Web.event))
    (cmd : list str) : Prop :=
  (∃ n, truthy n ∧ cmd = start_cmd n)
  ∨ (∃ n m, cmd = Web.resume n m ∧ echoed sent m).

(** The prompt a thread runs goose for. *)
Definition thread_prompt (t : Web.thread) : str :=
  match t with
  | Web.Created _ m => m
  | Web.Reading _ m _ _ => m
  end.

(** The command lines of the terminal program: the version check, the
    start of a session under a name that is not empty, and a prompt that
    is more than white space, resumed in a session or run on its own. *)
Definition terminal_command (cmd : list str) : Prop :=
  cmd = [u "goose"; u "--version"]
  ∨ (∃ n, truthy n ∧ cmd = start_cmd n)
  ∨ (∃ n m, truthy (strip m) ∧ cmd = Tui.command n m).

(** The bubble that shows an entry of the chat history. *)
Definition shown (e : Tui.entry) : Tui.ChatBubble :=
  Tui.Bubble (Tui.entry_role e) (Tui.Str (Tui.entry_content e))
    (Tui.entry_timestamp e).

(** An operation either empties the history, or what it appends to the history is among the bubbles it
    appends to the chat, in the same order. *)
Definition appends_shown (a a' : Tui.tui) : Prop :=
  Tui.chat_history a' = []
  ∨ ∃ entries bubbles,
      Tui.chat_history a' = Tui.chat_history a ++ entries
      ∧ Tui.chat_messages a' = Tui.chat_messages a ++ bubbles
      ∧ shown <$> entries `sublist_of` bubbles.


(** * Properties *)

(** ** Strings *)

Lemma leb_total s1 s2 : leb s1 s2 ∨ leb s2 s1.
Proof.
  revert s2. induction s1 as [|c1 s1 IH]; intros [|c2 s2]; simpl; auto.
  destruct (N.ltb_spec c1 c2), (N.ltb_spec c2 c1); simpl; auto; try lia.
  assert (c1 = c2) as -> by lia. rewrite N.eqb_refl. apply IH.
Qed.

Lemma leb_trans s1 s2 s3 : leb s1 s2 → leb s2 s3 → leb s1 s3.
Proof.
  revert s2 s3.
  induction s1 as [|c1 s1 IH]; intros [|c2 s2] [|c3 s3]; simpl; auto;
    try contradiction.
  destruct (N.ltb_spec c1 c2), (N.ltb_spec c2 c3), (N.ltb_spec c1 c3);
    simpl; auto; try lia;
    destruct (N.eqb_spec c1 c2), (N.eqb_spec c2 c3), (N.eqb_spec c1 c3);
    simpl; auto; try contradiction; try lia.
  apply IH.
Qed.

Lemma ltb_leb s1 s2 : ltb s1 s2 → leb s1 s2.
Proof.
  unfold ltb. destruct (leb_total s1 s2) as [H|H]; [done|].
  destruct (leb s2 s1); [contradiction | done].
Qed.

Lemma not_ltb_leb s1 s2 : ltb s1 s2 = false → leb s2 s1.
Proof. unfold ltb. by destruct (leb s2 s1). Qed.

Lemma leb_not_ltb s1 s2 : leb s1 s2 → ltb s2 s1 = false.
Proof. unfold ltb. by destruct (leb s1 s2). Qed.

(** ** Sorted lists *)

Section sorted.
Context {A : Type}.

Lemma StronglySorted_unfmap {B} (f : A → B) (R : relation B) l :
  StronglySorted R (f <$> l) → StronglySorted (λ x y, R (f x) (f y)) l.
Proof.
  induction l as [|x l IH]; csimpl; [constructor|].
  intros H. apply StronglySorted_inv in H as [Hl Hx].
  constructor; [by apply IH|]. by rewrite Forall_fmap in Hx.
Qed.

(** [order_by] for a key that is ordered by [R], [before] being the strict
    part of [R]. *)
Context (before : A → A → bool) (R : relation A).
Hypothesis before_R : ∀ x y, before x y → R x y.
Hypothesis not_before_R : ∀ x y, before x y = false → R y x.
Hypothesis R_not_before : ∀ x y, R x y → before y x = false.
Hypothesis R_trans : ∀ x y z, R x y → R y z → R x z.

Lemma insert_row_Permutation r l : Sqlite.insert_row before r l ≡ₚ r :: l.
Proof.
  induction l as [|r' l IH]; [done|]. cbn.
  destruct (before r' r); [|done]. rewrite IH. apply Permutation_swap.
Qed.

Lemma order_by_Permutation l : Sqlite.order_by before l ≡ₚ l.
Proof.
  induction l as [|r l IH]; [done|]. cbn.
  by rewrite insert_row_Permutation, IH.
Qed.

Lemma insert_row_sorted r l :
  StronglySorted R l → StronglySorted R (Sqlite.insert_row before r l).
Proof using before_R not_before_R R_trans.
  induction 1 as [|r' l Hl IH Hr']; cbn; [by repeat constructor|].
  destruct (before r' r) eqn:Hrr'.
  - constructor; [done|]. rewrite insert_row_Permutation.
    constructor; [|done]. apply before_R. by rewrite Hrr'.
  - apply not_before_R in Hrr'. constructor; [by constructor|].
    constructor; [done|]. eapply Forall_impl; [done|].
    intros x. by apply R_trans.
Qed.

Lemma order_by_sorted l : StronglySorted R (Sqlite.order_by before l).
Proof using before_R not_before_R R_trans.
  induction l as [|r l IH]; cbn; [constructor|]. by apply insert_row_sorted.
Qed.

(** The sort is stable: rows that are in the order of their keys already,
    equal keys included, come back as they are. *)
Lemma order_by_stable l : StronglySorted R l → Sqlite.order_by before l = l.
Proof using R_not_before.
  induction 1 as [|r l _ IH Hr]; [done|].
  change (Sqlite.insert_row before r (Sqlite.order_by before l) = r :: l).
  rewrite IH. destruct Hr as [|r' l Hrr' _]; [done|]. cbn.
  by rewrite (R_not_before _ _ Hrr').
Qed.

End sorted.

(** ** Reading the history of a session *)

Lemma select_history_Permutation name table :
  Sqlite.select_history name table ≡ₚ appended name table.
Proof.
  unfold Sqlite.select_history, appended.
  by rewrite order_by_Permutation.
Qed.

Lemma select_history_ascending name table :
  StronglySorted ascending (Sqlite.select_history name table).
Proof.
  unfold Sqlite.select_history.
  apply (StronglySorted_fmap _
           (λ r1 r2, leb (Sqlite.timestamp r1) (Sqlite.timestamp r2)));
    [by intros ??|].
  apply (order_by_sorted Sqlite.timestamp_asc).
  - intros r1 r2. apply ltb_leb.
  - intros r1 r2. apply not_ltb_leb.
  - intros r1 r2 r3. apply leb_trans.
Qed.

Lemma select_history_appended name table :
  StronglySorted ascending (appended name table) →
  Sqlite.select_history name table = appended name table.
Proof.
  unfold Sqlite.select_history, appended. intros H. f_equal.
  apply StronglySorted_unfmap in H.
  apply (order_by_stable Sqlite.timestamp_asc _
           (λ r1 r2, leb_not_ltb (Sqlite.timestamp r1) (Sqlite.timestamp r2))
           _ H).
Qed.

(** C1: for every session name, both front-ends read back exactly the
    messages appended to the session, each with its role, content and
    timestamp, ordered ascending by timestamp.  Under the invariant of the
    data model, that the timestamps of a session never decrease in the
    order of insertion, this is the order in which the messages were
    appended, messages with equal timestamps included. *)
Theorem history_round_trip name sessions table :
  let history := Sqlite.select_history name table in
  (∀ s, Web.sessions_db s = Sqlite.File sessions (inr table) →
     Web.api_session_history name s
       = (s, (Web.Messages history, 200%nat)))
  ∧ (∀ o a, Tui.sessions_db a = Sqlite.File sessions (inr table) →
     Tui.chat_messages (Tui.load_session_history o name a)
       = (bubble_of <$> history)
           ++ [Tui.Bubble (u "system")
                 (Tui.LoadedHistory (length history) name)
                 (now o HMS (Tui.clock a))])
  ∧ history ≡ₚ appended name table
  ∧ StronglySorted ascending history
  ∧ (StronglySorted ascending (appended name table) →
     history = appended name table).
Proof.
  intros history. repeat split.
  - intros s Hdb. unfold Web.api_session_history. by rewrite Hdb.
  - intros o a Hdb. unfold Tui.load_session_history. simpl. by rewrite Hdb.
  - apply select_history_Permutation.
  - apply select_history_ascending.
  - apply select_history_appended.
Qed.

Lemma history_round_trip_witness :
  let s := fresh_server (Sqlite.File (inr []) (inr one_second)) in
  Web.api_session_history (u "demo") s
    = (s, (Web.Messages (appended (u "demo") one_second), 200%nat)).
Proof.
  intros s.
  destruct (history_round_trip (u "demo") (inr []) one_second)
    as (Hweb & _ & _ & _ & Horder).
  rewrite <- Horder; [by apply Hweb|].
  repeat (constructor; simpl).
Defined.

(** ** Listing the sessions *)

Lemma select_sessions_Permutation table :
  Sqlite.select_sessions table ≡ₚ all_sessions table.
Proof.
  unfold Sqlite.select_sessions, all_sessions.
  by rewrite order_by_Permutation.
Qed.

Lemma select_sessions_newest_first table :
  StronglySorted newest_first (Sqlite.select_sessions table).
Proof.
  unfold Sqlite.select_sessions.
  apply (StronglySorted_fmap _
           (λ r1 r2, leb (Sqlite.last_accessed r2) (Sqlite.last_accessed r1)));
    [by intros ??|].
  apply (order_by_sorted Sqlite.last_accessed_desc).
  - intros r1 r2. apply ltb_leb.
  - intros r1 r2. apply not_ltb_leb.
  - intros r1 r2 r3 H12 H23. eapply leb_trans; [apply H23 | apply H12].
Qed.

Lemma select_sessions_stable table :
  StronglySorted newest_first (all_sessions table) →
  Sqlite.select_sessions table = all_sessions table.
Proof.
  unfold Sqlite.select_sessions, all_sessions. intros H. f_equal.
  apply StronglySorted_unfmap in H.
  apply (order_by_stable Sqlite.last_accessed_desc _
           (λ r1 r2,
              leb_not_ltb (Sqlite.last_accessed r2) (Sqlite.last_accessed r1))
           _ H).
Qed.

Lemma select_recent_items table :
  (λ '(name, created, accessed), Tui.Item name accessed)
    <$> Sqlite.select_recent table
  = item_of <$> take 10 (Sqlite.select_sessions table).
Proof.
  unfold Sqlite.select_recent, Sqlite.select_sessions.
  rewrite <- fmap_take, <- !list_fmap_compose. by apply list_fmap_ext.
Qed.

(** C7, as stated, fails: nothing limits the web listing.  With eleven
    sessions in the table it returns eleven, where the terminal program
    lists ten. *)
Lemma web_listing_has_no_limit :
  let s := fresh_server (Sqlite.File (inr eleven_sessions) (inr [])) in
  let a := fresh_app (Sqlite.File (inr eleven_sessions) (inr [])) in
  ∃ sessions,
    (Web.api_sessions s).2 = (Web.Sessions sessions, 200%nat)
    ∧ length sessions = 11%nat
    ∧ ¬ (length sessions ≤ 10)%nat
    ∧ length (Tui.session_list (Tui.load_recent_sessions no_goose a))
      = 10%nat.
Proof.
  eexists. split; [reflexivity|]. split; [reflexivity|].
  split; [vm_compute; lia|]. reflexivity.
Qed.

(** C7, amended: both listings are ordered by last access, most recent
    first, sessions with the same last access in the order of insertion.
    The web listing returns every session of the table; the terminal
    listing appends to the sidebar the first ten of that same order.
    Neither takes a limit from its caller. *)
Theorem session_listing messages table :
  let listing := Sqlite.select_sessions table in
  (∀ s, Web.sessions_db s = Sqlite.File (inr table) messages →
     Web.api_sessions s = (s, (Web.Sessions listing, 200%nat)))
  ∧ (∀ o a, Tui.sessions_db a = Sqlite.File (inr table) messages →
     Tui.session_list (Tui.load_recent_sessions o a)
       = Tui.session_list a ++ (item_of <$> take 10 listing))
  ∧ listing ≡ₚ all_sessions table
  ∧ StronglySorted newest_first listing
  ∧ length (take 10 listing) = (10 `min` length table)%nat
  ∧ (StronglySorted newest_first (all_sessions table) →
     listing = all_sessions table).
Proof.
  intros listing. repeat split.
  - intros s Hdb. unfold Web.api_sessions. by rewrite Hdb.
  - intros o a Hdb. unfold Tui.load_recent_sessions. rewrite Hdb. simpl.
    rewrite select_recent_items. fold listing. by case_bool_decide.
  - apply select_sessions_Permutation.
  - apply select_sessions_newest_first.
  - subst listing. rewrite length_take. f_equal.
    rewrite (Permutation_length (select_sessions_Permutation table)).
    apply length_fmap.
  - apply select_sessions_stable.
Qed.

Lemma session_listing_witness :
  let s := fresh_server (Sqlite.File (inr eleven_sessions) (inr [])) in
  Web.api_sessions s
    = (s, (Web.Sessions (Sqlite.select_sessions eleven_sessions), 200%nat)).
Proof.
  intros s.
  by apply (proj1 (session_listing (inr []) eleven_sessions)).
Defined.

(** ** A store that cannot be read *)

Lemma with_db_same a : Tui.with_db (Tui.sessions_db a) a = a.
Proof. by destruct a. Qed.

(** C8, as stated, fails: with no database file the web history is an
    empty list with status 200, and nothing in the response warns. *)
Lemma missing_store_no_warning :
  let s := fresh_server (Sqlite.NoFile true) in
  (Web.api_session_history (u "demo") s).2 = (Web.Messages [], 200%nat)
  ∧ ¬ warns (Web.api_session_history (u "demo") s).2.
Proof. split; [reflexivity|]. vm_compute. tauto. Qed.

(** C8, amended: no operation on a store that cannot be read raises.  The
    web endpoints answer an empty list with status 200, without a warning,
    when the file is missing, and the error text with status 500 when
    reading it raises.  The terminal listing and the terminal history
    loader add one system notice that reports the failure and leave the
    sidebar, the chat and the current session as they were. *)
Theorem store_unavailable name :
  (∀ b s, Web.sessions_db s = Sqlite.NoFile b →
     Web.api_sessions s = (s, (Web.Sessions [], 200%nat))
     ∧ Web.api_session_history name s = (s, (Web.Messages [], 200%nat)))
  ∧ (∀ e1 e2 s, Web.sessions_db s = Sqlite.File (inl e1) (inl e2) →
     Web.api_sessions s = (s, (Web.Error e1, 500%nat))
     ∧ Web.api_session_history name s = (s, (Web.Error e2, 500%nat)))
  ∧ (∀ o a, unavailable (Tui.sessions_db a) →
     ∃ w, store_warning w
          ∧ Tui.load_recent_sessions o a = Tui.add_system_message o w a)
  ∧ (∀ o a, unavailable (Tui.sessions_db a) →
     ∃ e, Tui.load_session_history o name a
          = Tui.add_system_message o (Tui.LoadHistoryError e)
              (Tui.with_db (Sqlite.connect (Tui.sessions_db a)) a)).
Proof.
  repeat split.
  - unfold Web.api_sessions. by rewrite H.
  - unfold Web.api_session_history. by rewrite H.
  - unfold Web.api_sessions. by rewrite H.
  - unfold Web.api_session_history. by rewrite H.
  - intros o a Hdb. unfold Tui.load_recent_sessions.
    inversion Hdb as [b Hst|e1 e2 Hst]; simpl.
    + by exists Tui.NoDatabase.
    + rewrite Hst, with_db_same.
      destruct e1; eexists; (split; [|reflexivity]); done.
  - intros o a Hdb. unfold Tui.load_session_history.
    inversion Hdb as [[] Hst|e1 e2 Hst]; simpl; by eexists.
Qed.

Lemma store_unavailable_witness :
  let a := fresh_app (Sqlite.File (inl Sqlite.unable_to_open)
                                  (inl Sqlite.unable_to_open)) in
  ∃ w, store_warning w
       ∧ Tui.load_recent_sessions no_goose a
         = Tui.add_system_message no_goose w a.
Proof.
  intros a.
  apply (proj1 (proj2 (proj2 (store_unavailable (u "demo"))))).
  constructor.
Defined.

(** ** The aggregated message of an invocation *)

Lemma captured_cons line stdout :
  captured (line :: stdout)
  = if truthy (strip line) then strip line :: captured stdout
    else captured stdout.
Proof.
  unfold captured. csimpl. rewrite filter_cons.
  destruct (truthy (strip line)) eqn:E; by case_decide.
Qed.

Lemma captured_truthy stdout : Forall (λ line, truthy line) (captured stdout).
Proof.
  apply Forall_forall. intros line Hline.
  by apply list_elem_of_filter in Hline as [? _].
Qed.

(** Joining lines of which none is empty gives the empty string for the
    empty list only. *)
Lemma join_truthy sep parts :
  Forall (λ p, truthy p) parts →
  truthy (join sep parts) = truthy (concat parts).
Proof.
  destruct 1 as [|p rest Hp _]; [done|].
  destruct p as [|c p]; [done|]. simpl. by destruct rest.
Qed.

Lemma aggregated_join stdout :
  aggregated stdout
  = if truthy (join newline (captured stdout))
    then join newline (captured stdout) else Tui.no_output.
Proof.
  unfold aggregated. rewrite join_truthy by apply captured_truthy.
  destruct (captured_truthy stdout) as [|[|c line] lines Hline _]; done.
Qed.

(** The loops of the two programs collect the captured lines. *)
Lemma tui_read_lines stdout response_lines :
  Tui.read_lines stdout response_lines = response_lines ++ captured stdout.
Proof.
  revert response_lines.
  induction stdout as [|line stdout IH]; intros response_lines; simpl.
  - by rewrite app_nil_r.
  - rewrite captured_cons. destruct (truthy (strip line)); rewrite IH;
      by rewrite <- ?app_assoc.
Qed.

Lemma web_read_lines stdout response_lines s :
  Web.read_lines stdout response_lines s
  = (response_lines ++ captured stdout,
     Web.with_sent
       (Web.sent s
          ++ ((λ line, (Web.Everyone, Web.partial_response line))
                <$> captured stdout)) s).
Proof.
  revert response_lines s.
  induction stdout as [|line stdout IH]; intros response_lines s; simpl.
  - rewrite !app_nil_r. by destruct s.
  - rewrite captured_cons. unfold Web.read_line.
    destruct (truthy (strip line)); rewrite IH; [|done].
    unfold Web.emit. simpl. by rewrite <- !app_assoc.
Qed.

(** What [send_to_goose] leaves behind when the child ran to its end. *)
Lemma send_to_goose_completed o message a process :
  truthy (strip message) →
  popen o (Tui.command (Tui.current_session_name a) message)
    = PopenOk process →
  let k := Tui.clock a in
  let a' := Tui.send_to_goose o message a in
  Tui.chat_history a'
    = Tui.chat_history a
        ++ [Tui.Entry (u "user") message (now o HMS k);
            Tui.Entry (u "assistant") (aggregated (stdout process))
              (now o HMS (2 + k))]
  ∧ Tui.chat_messages a'
    = Tui.chat_messages a
        ++ [Tui.Bubble (u "user") (Tui.Str message) (now o HMS k);
            Tui.Bubble (u "system") Tui.Thinking (now o HMS (1 + k));
            Tui.Bubble (u "assistant") (Tui.Str (aggregated (stdout process)))
              (now o HMS (2 + k))]
        ++ (if negb (returncode process =? 0)%Z && truthy (stderr process)
            then [Tui.Bubble (u "system") (Tui.StderrWarning (stderr process))
                    (now o HMS (3 + k))]
            else []).
Proof.
  intros Hmessage Hpopen k a'. subst a'. unfold Tui.send_to_goose.
  destruct (truthy (strip message)); [simpl|done]. rewrite Hpopen.
  rewrite tui_read_lines, app_nil_l, aggregated_join.
  destruct (truthy (join _ _)), (returncode process =? 0)%Z,
    (truthy (stderr process)); simpl;
    rewrite <- ?app_assoc; done.
Qed.

(** What [run_goose] sends when the child ran to its end. *)
Lemma run_goose_completed o session_name message_ s process :
  popen o (Web.resume session_name message_) = PopenOk process →
  Web.sent (Web.run_goose o session_name message_ s)
  = Web.sent s
      ++ ((λ line, (Web.Everyone, Web.partial_response line))
            <$> captured (stdout process))
      ++ [(Web.Everyone,
           Web.message (u "assistant")
             (join newline (captured (stdout process)))
             (now o Iso (Web.clock s)))].
Proof.
  intros Hpopen. unfold Web.run_goose. rewrite Hpopen.
  rewrite web_read_lines. simpl. by rewrite <- app_assoc.
Qed.

(** The scenario of a child that prints "thinking..." and "done" and exits
    with 0: two partial responses, then the assistant message with both
    lines. *)
Example resume_hello_scenario :
  Web.sent (Web.handle_message thinking_goose hello_demo
              (fresh_server (Sqlite.NoFile true)))
  = [(Web.Client, Web.message (u "user") (u "hello") (u "t0"));
     (Web.Everyone, Web.partial_response (u "thinking..."));
     (Web.Everyone, Web.partial_response (u "done"));
     (Web.Everyone,
      Web.message (u "assistant") (u "thinking..." ++ [10] ++ u "done")
        (u "t1"))]
  ∧ Tui.chat_history (Tui.send_to_goose thinking_goose (u "hello") demo_app)
  = [Tui.Entry (u "user") (u "hello") (u "t0");
     Tui.Entry (u "assistant") (u "thinking..." ++ [10] ++ u "done")
       (u "t2")].
Proof. split; reflexivity. Qed.

(** C2 at an invocation without output: the web program sends an assistant
    message whose content is the empty string, where the terminal program
    records the "no output" sentinel. *)
Theorem web_empty_output_no_sentinel :
  Web.sent (Web.handle_message silent_goose hello_demo
              (fresh_server (Sqlite.NoFile true)))
  = [(Web.Client, Web.message (u "user") (u "hello") (u "t0"));
     (Web.Everyone, Web.message (u "assistant") [] (u "t1"))]
  ∧ Tui.chat_history (Tui.send_to_goose silent_goose (u "hello") demo_app)
  = [Tui.Entry (u "user") (u "hello") (u "t0");
     Tui.Entry (u "assistant") Tui.no_output (u "t2")].
Proof. split; reflexivity. Qed.

(** C3 at an invocation that prints "partial line" and fails with "boom":
    the web program sends the captured line as the assistant message and
    nothing about the failure, where the terminal program adds a warning
    with the error text after the assistant message. *)
Theorem web_nonzero_exit_no_warning :
  Web.sent (Web.handle_message failing_goose hello_demo
              (fresh_server (Sqlite.NoFile true)))
  = [(Web.Client, Web.message (u "user") (u "hello") (u "t0"));
     (Web.Everyone, Web.partial_response (u "partial line"));
     (Web.Everyone, Web.message (u "assistant") (u "partial line") (u "t1"))]
  ∧ Tui.chat_messages (Tui.send_to_goose failing_goose (u "hello") demo_app)
  = [Tui.Bubble (u "user") (Tui.Str (u "hello")) (u "t0");
     Tui.Bubble (u "system") Tui.Thinking (u "t1");
     Tui.Bubble (u "assistant") (Tui.Str (u "partial line")) (u "t2");
     Tui.Bubble (u "system") (Tui.StderrWarning (u "boom")) (u "t3")].
Proof. split; reflexivity. Qed.

(** ** Timeouts *)

(** C5: a start invocation that runs for more than 10 time units ends
    with [TimeoutExpired], which both front-ends report as a failure
    without any transcript entry: the terminal history is empty and the
    web program sends an error event only; one that ends within 10 units
    is reported as a success.  A resume invocation does not depend on how
    long the child runs. *)
Theorem start_timeout_resume_unbounded o :
  (∀ name a process,
     let n := name_or_now o name (Tui.clock a) in
     let a' := Tui.start_new_session o name a in
     popen o (start_cmd n) = PopenOk process →
     Tui.chat_history a' = []
     ∧ ∃ t1 t2,
         Tui.chat_messages a'
         = Tui.chat_messages a
             ++ [Tui.Bubble (u "system") (Tui.Started n) t1;
                 Tui.Bubble (u "system")
                   (if 10 <? duration process
                    then Tui.SessionInitError (TimeoutExpired (start_cmd n) 10)
                    else Tui.SessionInitialized n) t2])
  ∧ (∀ data s process,
     let n := name_or_now o (Web.data_name data) (Web.clock s) in
     popen o (start_cmd n) = PopenOk process →
     Web.sent (Web.handle_new_session o data s)
     = Web.sent s
         ++ [(Web.Client,
              if 10 <? duration process
              then Web.error
                     (Web.FailedToCreate (TimeoutExpired (start_cmd n) 10))
              else Web.session_created n)])
  ∧ (∀ o', now o' = now o →
     (∀ cmd, same_but_duration (popen o cmd) (popen o' cmd)) →
     (∀ message a,
        Tui.send_to_goose o' message a = Tui.send_to_goose o message a)
     ∧ (∀ data s,
        Web.handle_message o' data s = Web.handle_message o data s)).
Proof.
  split; [|split].
  - intros name a process n a' Hpopen. subst a'.
    unfold Tui.start_new_session, run. fold n. fold (start_cmd n).
    rewrite Hpopen.
    destruct (10 <? duration process), (truthy (default [] name));
      simpl; (split; [reflexivity | eexists _, _; by rewrite <- app_assoc]).
  - intros data s process n Hpopen.
    unfold Web.handle_new_session, run. fold n. fold (start_cmd n).
    rewrite Hpopen.
    by destruct (10 <? duration process),
      (truthy (default [] (Web.data_name data))).
  - intros [popen' now'] Hnow Hsame. destruct o as [popen_ now_].
    cbn [popen now] in *. subst now'. split.
    + intros message a.
      unfold Tui.send_to_goose, Tui.add_user_message, Tui.add_goose_message,
        Tui.add_system_message, Tui.mount_bubble.
      cbn [popen now].
      destruct (truthy (strip message)); [|reflexivity].
      cbn [negb].
      match goal with |- context [popen_ ?c] => specialize (Hsame c) end.
      destruct (popen_ _) as [e|[]], (popen' _) as [e'|[]];
        cbn in Hsame; try contradiction.
      * by subst.
      * destruct Hsame as (-> & -> & ->). reflexivity.
    + intros data s.
      unfold Web.handle_message, Web.accept, Web.run_goose, Web.complete.
      cbn [popen now].
      destruct (negb _); [reflexivity|].
      match goal with |- context [popen_ ?c] => specialize (Hsame c) end.
      destruct (popen_ _) as [e|[]], (popen' _) as [e'|[]];
        cbn in Hsame; try contradiction.
      * by subst.
      * destruct Hsame as (-> & _). reflexivity.
Qed.

Lemma start_timeout_resume_unbounded_witness :
  Tui.chat_history (Tui.start_new_session slow_goose (Some (u "demo")) demo_app)
  = []
  ∧ ∃ t1 t2,
      Tui.chat_messages
        (Tui.start_new_session slow_goose (Some (u "demo")) demo_app)
      = [Tui.Bubble (u "system") (Tui.Started (u "demo")) t1;
         Tui.Bubble (u "system")
           (Tui.SessionInitError (TimeoutExpired (start_cmd (u "demo")) 10))
           t2].
Proof.
  apply (proj1 (start_timeout_resume_unbounded slow_goose)
           (Some (u "demo")) demo_app (Process [] [] 0 11)).
  reflexivity.
Defined.

(** ** A missing agent *)

Lemma tui_command_goose session_name message_ :
  ∃ args, Tui.command session_name message_ = u "goose" :: args.
Proof. unfold Tui.command. destruct (truthy session_name); by eexists. Qed.

(** C6: when the goose binary cannot be located, sending a prompt starts
    no child process and leaves the database as it was; the failure is
    shown to the user, as an error event after the echo of the prompt by
    the web program, as a system notice after the prompt by the terminal
    program, and no assistant message is produced.  At start-up the
    terminal program reports that goose was not found and starts no
    session. *)
Theorem agent_not_installed o :
  not_installed o →
  (∀ data s,
     truthy (default [] (Web.data_message data)) →
     let s' := Web.handle_message o data s in
     Web.spawned s' = Web.spawned s
     ∧ Web.sessions_db s' = Web.sessions_db s
     ∧ ∃ msg,
         Web.sent s'
         = Web.sent s
             ++ [(Web.Client,
                  Web.message (u "user") (default [] (Web.data_message data))
                    (now o Iso (Web.clock s)));
                 (Web.Everyone,
                  Web.error (Web.StrOf (FileNotFoundError msg)))])
  ∧ (∀ message_ a,
     truthy (strip message_) →
     let a' := Tui.send_to_goose o message_ a in
     let k := Tui.clock a in
     Tui.spawned a' = Tui.spawned a
     ∧ Tui.sessions_db a' = Tui.sessions_db a
     ∧ Tui.chat_history a'
       = Tui.chat_history a ++ [Tui.Entry (u "user") message_ (now o HMS k)]
     ∧ ∃ msg,
         Tui.chat_messages a'
         = Tui.chat_messages a
             ++ [Tui.Bubble (u "user") (Tui.Str message_) (now o HMS k);
                 Tui.Bubble (u "system") Tui.Thinking (now o HMS (1 + k));
                 Tui.Bubble (u "system")
                   (Tui.SendError (FileNotFoundError msg))
                   (now o HMS (2 + k))])
  ∧ (∀ a,
     let a' := Tui.on_mount o a in
     let k := Tui.clock a in
     Tui.spawned a' = Tui.spawned a
     ∧ Tui.sessions_db a' = Tui.sessions_db a
     ∧ Tui.chat_history a' = Tui.chat_history a
     ∧ Tui.current_session_name a' = Tui.current_session_name a
     ∧ Tui.chat_messages a'
       = Tui.chat_messages a
           ++ [Tui.Bubble (u "system") Tui.Initializing (now o HMS k);
               Tui.Bubble (u "system") Tui.NotFound (now o HMS (1 + k))]).
Proof.
  intros Hmissing. split; [|split].
  - intros data s Hmessage s'. subst s'.
    unfold Web.handle_message, Web.accept, Web.run_goose, Web.resume.
    destruct (truthy (default [] (Web.data_message data))); [|done].
    cbn [negb].
    match goal with |- context [popen o (_ :: ?args)] =>
      destruct (Hmissing args) as [msg ->] end.
    repeat split. exists msg. cbn. by rewrite <- app_assoc.
  - intros message_ a Hmessage a' k. subst a' k. unfold Tui.send_to_goose.
    destruct (truthy (strip message_)); [|done]. cbn [negb].
    match goal with |- context [popen o ?cmd] =>
      destruct (tui_command_goose (Tui.current_session_name a) message_)
        as [args Hargs];
      change cmd with (Tui.command (Tui.current_session_name a) message_);
      rewrite Hargs; destruct (Hmissing args) as [msg ->] end.
    repeat split. exists msg. cbn. by rewrite <- !app_assoc.
  - intros a a' k. subst a' k. unfold Tui.on_mount, run.
    destruct (Hmissing [u "--version"]) as [msg ->].
    repeat split. cbn. by rewrite <- app_assoc.
Qed.

Lemma agent_not_installed_witness :
  Tui.spawned (Tui.on_mount no_goose demo_app) = []
  ∧ Tui.chat_messages (Tui.on_mount no_goose demo_app)
    = [Tui.Bubble (u "system") Tui.Initializing (u "t0");
       Tui.Bubble (u "system") Tui.NotFound (u "t1")].
Proof.
  assert (not_installed no_goose) as H by (intros args; by eexists).
  destruct (proj2 (proj2 (agent_not_installed no_goose H)) demo_app)
    as (Hspawned & _ & _ & _ & Hmessages).
  split; [exact Hspawned | exact Hmessages].
Defined.

(** ** An empty prompt *)

Lemma lstrip_spaces s : Forall (λ c, isspace c) s → lstrip s = [].
Proof.
  induction 1 as [|c s Hc _ IH]; [done|]. simpl.
  by destruct (isspace c).
Qed.

Lemma strip_spaces s : Forall (λ c, isspace c) s → strip s = [].
Proof. intros H. unfold strip. by rewrite lstrip_spaces. Qed.

(** C9: a send-message event whose prompt is missing or empty leaves the web
    server as it was, with no thread started; a prompt made of white space
    only (the empty prompt included) leaves the terminal application as it
    was, whether it reaches [send_to_goose] directly or from the input
    field. *)
Theorem empty_prompt_no_op o :
  (∀ data s,
     default [] (Web.data_message data) = [] →
     Web.accept o data s = None ∧ Web.handle_message o data s = s)
  ∧ (∀ message_ a,
     Forall (λ c, isspace c) message_ → Tui.send_to_goose o message_ a = a)
  ∧ (∀ a,
     Forall (λ c, isspace c) (Tui.chat_input a) →
     Tui.handle_send_message o a = a).
Proof.
  split; [|split].
  - intros data s Hempty. unfold Web.handle_message, Web.accept.
    by rewrite Hempty.
  - intros message_ a Hspaces. unfold Tui.send_to_goose.
    by rewrite strip_spaces.
  - intros a Hspaces. unfold Tui.handle_send_message.
    by rewrite strip_spaces.
Qed.

Lemma empty_prompt_no_op_witness :
  Tui.send_to_goose failing_goose (u "  " ++ [9; 10]) demo_app = demo_app.
Proof.
  apply (proj1 (proj2 (empty_prompt_no_op failing_goose))).
  repeat constructor.
Defined.

(** ** Updating the configuration *)

(** C10: a configuration update gives every key of the request body the
    value of the body and leaves every other key with its previous value;
    the merged configuration is what the server keeps, what it writes to
    the configuration file and what it returns, with status 200.  Nothing
    else changes. *)
Theorem config_update_merges data s :
  let s' := (Web.api_config_post data s).1 in
  (Web.api_config_post data s).2 = (Web.ConfigSaved (Web.config s'), 200%nat)
  ∧ Web.config_file s' = Some (Web.config s')
  ∧ (∀ k, data !! k = None → Web.config s' !! k = Web.config s !! k)
  ∧ (∀ k v, data !! k = Some v → Web.config s' !! k = Some v)
  ∧ Web.threads s' = Web.threads s ∧ Web.sent s' = Web.sent s
  ∧ Web.sessions_db s' = Web.sessions_db s
  ∧ Web.spawned s' = Web.spawned s.
Proof.
  cbn. repeat split.
  - intros k Hk. by apply lookup_union_r.
  - intros k v Hk. by apply lookup_union_Some_l.
Qed.

Lemma config_update_merges_witness :
  let data : gmap str Web.json := {[ u "model" := Web.JStr (u "gpt-4o") ]} in
  let s' := (Web.api_config_post data (fresh_server (Sqlite.NoFile true))).1 in
  Web.config s' !! u "model" = Some (Web.JStr (u "gpt-4o"))
  ∧ Web.config s' !! u "port" = Some (Web.JInt 8080)
  ∧ Web.config_file s' = Some (Web.config s').
Proof.
  intros data s'.
  destruct (config_update_merges data (fresh_server (Sqlite.NoFile true)))
    as (_ & Hfile & Hkept & Hset & _).
  split; [|split].
  - apply Hset. apply lookup_singleton_eq.
  - subst s'. rewrite Hkept; [reflexivity|]. by apply lookup_singleton_ne.
  - exact Hfile.
Defined.

(** ** The handler as one schedule of the threads *)

Lemma insert_last {A} (l : list A) (x y : A) :
  <[length l := y]> (l ++ [x]) = l ++ [y].
Proof.
  by rewrite <- (Nat.add_0_r (length l)), insert_app_r.
Qed.

Lemma delete_last {A} (l : list A) (x : A) : delete (length l) (l ++ [x]) = l.
Proof. by rewrite delete_middle, app_nil_r. Qed.

(** A thread inside its loop can read the rest of its child's output and
    complete without any other thread taking a step. *)
Lemma thread_runs_to_completion o session_name message_ ts unread :
  ∀ response_lines s,
    Web.threads s
      = ts ++ [Web.Reading session_name message_ unread response_lines] →
    rtc (Web.step o) s
      (let '(response_lines, s') :=
         Web.read_lines unread response_lines (Web.with_threads ts s) in
       Web.complete o response_lines s').
Proof.
  induction unread as [|line unread IH]; intros response_lines s Hthreads.
  - apply rtc_once. cbn.
    replace (Web.complete o response_lines (Web.with_threads ts s))
      with (Web.replace_thread (length ts) None
              (Web.complete o response_lines s)).
    + eapply Web.step_complete. rewrite Hthreads.
      by apply list_lookup_middle.
    + cbn. by rewrite Hthreads, delete_last.
  - assert (Web.threads s !! length ts
            = Some (Web.Reading session_name message_ (line :: unread)
                      response_lines)) as Hlookup.
    { rewrite Hthreads. by apply list_lookup_middle. }
    pose proof (Web.step_read o _ _ _ _ _ _ _ Hlookup) as Hstep.
    cbn [Web.read_lines]. unfold Web.read_line in *.
    destruct (truthy (strip line));
      (eapply rtc_l; [exact Hstep|]);
      match goal with |- rtc _ ?x _ => apply (λ l, IH l x) end;
      cbn; by rewrite Hthreads, insert_last.
Qed.

(** [handle_message], which runs the thread to its end at once, is one of
    the runs of the server with its threads. *)
Lemma handle_message_schedule o data s :
  rtc (Web.step o) s (Web.handle_message o data s).
Proof.
  unfold Web.handle_message.
  destruct (Web.accept o data s) as [[[session_name message_] s']|] eqn:E;
    [|apply rtc_refl].
  eapply rtc_l; [by eapply Web.step_send_message|].
  unfold Web.run_goose.
  destruct (popen o (Web.resume session_name message_)) as [e|process] eqn:Ep.
  - apply rtc_once.
    replace (Web.emit Web.Everyone (Web.error (Web.StrOf e)) s')
      with (Web.replace_thread (length (Web.threads s')) None
              (Web.emit Web.Everyone (Web.error (Web.StrOf e))
                 (Web.with_threads
                    (Web.threads s' ++ [Web.Created session_name message_])
                    s'))).
    + eapply Web.step_popen_raises; [|done]. by apply list_lookup_middle.
    + cbn. rewrite delete_last. by destruct s'.
  - eapply rtc_l.
    { eapply (Web.step_popen o (length (Web.threads s'))); [|done].
      by apply list_lookup_middle. }
    match goal with |- rtc _ ?x _ =>
      assert (Web.threads x
              = Web.threads s'
                  ++ [Web.Reading session_name message_ (stdout process) []])
        as Hthreads by (cbn; apply insert_last);
      exact (thread_runs_to_completion o session_name message_
               (Web.threads s') (stdout process) [] x Hthreads)
    end.
Qed.

(** ** Invocations at the same time *)

Lemma captured_app stdout1 stdout2 :
  captured (stdout1 ++ stdout2) = captured stdout1 ++ captured stdout2.
Proof. unfold captured. by rewrite fmap_app, filter_app. Qed.

Lemma captured_snoc read line :
  captured (read ++ [line])
  = if truthy (strip line) then captured read ++ [strip line]
    else captured read.
Proof.
  rewrite captured_app, captured_cons.
  destruct (truthy (strip line)); [done|]. apply app_nil_r.
Qed.

Lemma reachable_one_run o s :
  reachable o s →
  Forall (thread_of_one_run o) (Web.threads s)
  ∧ Forall (reply_of_one_run o) (Web.sent s).
Proof.
  intros (s0 & Hthreads & Hsent & Hsteps).
  revert s Hsteps. apply rtc_ind_r.
  { rewrite Hthreads, Hsent. by split. }
  intros s s' _ Hstep [IHt IHs].
  destruct Hstep as
    [data s session_name message_ s1 Haccept
    |data s Haccept
    |i s session_name message_ process Hi Hpopen
    |i s session_name message_ e Hi Hpopen
    |i s session_name message_ line unread response_lines Hi
    |i s session_name message_ response_lines Hi].
  - unfold Web.accept in Haccept.
    destruct (negb _); [done|]. injection Haccept as <- <- <-. cbn. split.
    + apply Forall_app. split; [done|]. by repeat constructor.
    + apply Forall_app. split; [done|]. repeat constructor.
      unfold reply_of_one_run. cbn. intros Hrole. by vm_compute in Hrole.
  - by split.
  - cbn. split; [|done]. apply Forall_insert; [done|].
    exists process, []. by rewrite app_nil_l.
  - cbn. split; [by apply Forall_delete|].
    apply Forall_app. split; [done|]. by repeat constructor.
  - destruct (Forall_lookup_1 _ _ _ _ IHt Hi)
      as (process & read & Hpopen & Hout & ->).
    assert (thread_of_one_run o
              (Web.Reading session_name message_ unread
                 (captured (read ++ [line])))) as Hthread.
    { exists process, (read ++ [line]). by rewrite <- app_assoc. }
    rewrite captured_snoc in Hthread.
    unfold Web.read_line. destruct (truthy (strip line)); cbn.
    + split; [by apply Forall_insert|].
      apply Forall_app. split; [done|]. by repeat constructor.
    + split; [by apply Forall_insert | done].
  - destruct (Forall_lookup_1 _ _ _ _ IHt Hi)
      as (process & read & Hpopen & Hout & ->).
    rewrite app_nil_r in Hout. subst read. cbn.
    split; [by apply Forall_delete|].
    apply Forall_app. split; [done|]. repeat constructor.
    intros _. by exists session_name, message_, process.
Qed.

Lemma both_running_reachable : reachable two_prompts both_running.
Proof.
  exists (fresh_server (Sqlite.NoFile true)). do 2 (split; [done|]).
  eapply rtc_l.
  { by eapply (Web.step_send_message _ first_demo). }
  eapply rtc_l.
  { by eapply (Web.step_send_message _ second_demo). }
  eapply rtc_l.
  { by eapply (Web.step_popen _ 0). }
  eapply rtc_l.
  { by eapply (Web.step_popen _ 1). }
  eapply rtc_l.
  { by eapply (Web.step_read _ 0). }
  eapply rtc_l.
  { by eapply (Web.step_read _ 1). }
  eapply rtc_l.
  { by eapply (Web.step_read _ 0). }
  apply rtc_refl.
Qed.

(** C4, as stated, fails: the web server reaches a state in which two
    invocations for session "demo" are running, the second one neither
    blocked nor rejected, and in which the partial responses of the two
    children have gone out interleaved. *)
Lemma two_invocations_at_once :
  reachable two_prompts both_running
  ∧ length (filter (running (u "demo")) (Web.threads both_running)) = 2%nat
  ∧ ¬ (∀ s, reachable two_prompts s →
          (length (filter (running (u "demo")) (Web.threads s)) ≤ 1)%nat).
Proof.
  split; [apply both_running_reachable|]. split; [reflexivity|].
  intros H. specialize (H _ both_running_reachable).
  vm_compute in H. lia.
Qed.

(** C4, amended: the web server starts a thread for every send-message
    event and excludes nothing, so several invocations for one session
    can run at once; yet in every state it can reach, each thread holds
    the captured lines of its own child only, and every assistant message
    sent is the captured output of exactly one child, joined by line
    breaks in the order of emission.  The terminal program runs an
    invocation to its end inside [send_to_goose], and the assistant entry
    it records is the aggregated output of that one child. *)
Theorem replies_from_one_run o :
  (∀ s, reachable o s →
     Forall (thread_of_one_run o) (Web.threads s)
     ∧ Forall (reply_of_one_run o) (Web.sent s))
  ∧ (∀ message_ a process,
     truthy (strip message_) →
     popen o (Tui.command (Tui.current_session_name a) message_)
       = PopenOk process →
     Tui.chat_history (Tui.send_to_goose o message_ a)
     = Tui.chat_history a
         ++ [Tui.Entry (u "user") message_ (now o HMS (Tui.clock a));
             Tui.Entry (u "assistant") (aggregated (stdout process))
               (now o HMS (2 + Tui.clock a))]).
Proof.
  split; [apply reachable_one_run|].
  intros message_ a process Hmessage Hpopen.
  apply (send_to_goose_completed o message_ a process Hmessage Hpopen).
Qed.

Lemma replies_from_one_run_witness :
  Forall (thread_of_one_run two_prompts) (Web.threads both_running)
  ∧ Forall (reply_of_one_run two_prompts) (Web.sent both_running).
Proof.
  apply (proj1 (replies_from_one_run two_prompts)), both_running_reachable.
Defined.

(** ** More on strings *)

Lemma lstrip_head s c : head (lstrip s) = Some c → isspace c = false.
Proof.
  induction s as [|c' s IH]; [done|]. simpl.
  destruct (isspace c') eqn:E; [done|]. by intros [= <-].
Qed.

Lemma lstrip_id s : (∀ c, head s = Some c → isspace c = false) → lstrip s = s.
Proof. destruct s as [|c s]; [done|]. simpl. intros H. by rewrite H. Qed.

Lemma lstrip_last s c : last (lstrip s) = Some c → last s = Some c.
Proof.
  induction s as [|c' s IH]; [done|]. simpl.
  destruct (isspace c'); [|done]. intros H. specialize (IH H).
  destruct s; [done|]. by rewrite last_cons_cons.
Qed.

Lemma strip_trimmed s : trimmed (strip s).
Proof.
  unfold strip, rstrip. split; intros c.
  - rewrite head_reverse. intros H%lstrip_last.
    rewrite last_reverse in H. by apply lstrip_head in H.
  - rewrite last_reverse. apply lstrip_head.
Qed.

Lemma strip_id s : trimmed s → strip s = s.
Proof.
  intros [Hhead Hlast]. unfold strip, rstrip.
  rewrite (lstrip_id s Hhead), lstrip_id; [apply reverse_involutive|].
  intros c. rewrite head_reverse. apply Hlast.
Qed.

Lemma strip_strip s : strip (strip s) = strip s.
Proof. apply strip_id, strip_trimmed. Qed.

Lemma captured_trimmed stdout :
  Forall (λ line, truthy line ∧ trimmed line) (captured stdout).
Proof.
  apply Forall_forall. intros line Hline.
  apply list_elem_of_filter in Hline as [Htruthy Hline].
  apply list_elem_of_fmap in Hline as (raw & -> & _).
  split; [done | apply strip_trimmed].
Qed.

(** ** The captured lines *)

(** X1: from the same output, the loops of the two programs capture the
    same lines; every captured line is non-empty and has no white space at
    either end; the web program sends one partial response for each
    captured line, in the order of the output, and nothing else. *)
Theorem captured_lines_trimmed stdout s :
  (Web.read_lines stdout [] s).1 = Tui.read_lines stdout []
  ∧ Forall (λ line, truthy line ∧ trimmed line) (Tui.read_lines stdout [])
  ∧ Web.sent (Web.read_lines stdout [] s).2
    = Web.sent s
        ++ ((λ line, (Web.Everyone, Web.partial_response line))
              <$> Tui.read_lines stdout []).
Proof.
  rewrite web_read_lines, tui_read_lines. cbn.
  split; [done|]. split; [apply captured_trimmed | done].
Qed.

(** ** The input field *)

(** X2: when the input field holds more than white space, submitting it
    records the stripped text as the user's message, sends that text to
    goose and empties the field, whatever goose does; when it holds white
    space only, the field keeps its content. *)
Theorem handle_send_message_strips o a :
  (truthy (strip (Tui.chat_input a)) →
   Tui.handle_send_message o a
     = Tui.with_input [] (Tui.send_to_goose o (strip (Tui.chat_input a)) a)
   ∧ Tui.chat_input (Tui.handle_send_message o a) = []
   ∧ ∃ rest,
       Tui.chat_history (Tui.handle_send_message o a)
       = Tui.chat_history a
           ++ Tui.Entry (u "user") (strip (Tui.chat_input a))
                (now o HMS (Tui.clock a)) :: rest)
  ∧ (truthy (strip (Tui.chat_input a)) = false →
     Tui.handle_send_message o a = a).
Proof.
  unfold Tui.handle_send_message.
  destruct (truthy (strip (Tui.chat_input a))) eqn:Hinput;
    (split; [|done]); [intros _ | intros []].
  split; [done|]. split; [done|].
  unfold Tui.send_to_goose. rewrite strip_strip, Hinput. cbn [negb].
  destruct (popen o _) as [e|process].
  - exists []. by destruct e.
  - destruct (truthy (join _ _)), (negb _), (truthy (stderr process));
      eexists [_]; cbn; by rewrite <- app_assoc.
Qed.

Lemma handle_send_message_strips_witness :
  Tui.chat_input
    (Tui.handle_send_message thinking_goose
       (Tui.with_input (u "  hello ") demo_app)) = [].
Proof.
  apply (proj1 (handle_send_message_strips thinking_goose
                  (Tui.with_input (u "  hello ") demo_app))).
  reflexivity.
Defined.

(** ** The terminal application and the database *)

Section tui_frame.
Context (o : os) (d : Sqlite.store).

Lemma add_system_message_db t a :
  Tui.add_system_message o t (Tui.with_db d a)
  = Tui.with_db d (Tui.add_system_message o t a).
Proof. reflexivity. Qed.

Lemma start_new_session_db name a :
  Tui.start_new_session o name (Tui.with_db d a)
  = Tui.with_db d (Tui.start_new_session o name a).
Proof.
  unfold Tui.start_new_session.
  destruct (run o _ 10) as [[] []], (truthy (default [] name)); reflexivity.
Qed.

Lemma send_to_goose_db message_ a :
  Tui.send_to_goose o message_ (Tui.with_db d a)
  = Tui.with_db d (Tui.send_to_goose o message_ a).
Proof.
  unfold Tui.send_to_goose, Tui.add_user_message, Tui.add_goose_message,
    Tui.add_system_message, Tui.mount_bubble.
  destruct (truthy (strip message_)); [|reflexivity]. cbn.
  destruct (popen o _) as [[]|process]; try reflexivity.
  by destruct (truthy (join _ _)), (returncode process =? 0)%Z,
    (truthy (stderr process)).
Qed.

Lemma handle_send_message_db a :
  Tui.handle_send_message o (Tui.with_db d a)
  = Tui.with_db d (Tui.handle_send_message o a).
Proof.
  unfold Tui.handle_send_message. cbn [Tui.chat_input Tui.with_db].
  destruct (truthy _); [|reflexivity]. by rewrite send_to_goose_db.
Qed.

Lemma action_new_session_db a :
  Tui.action_new_session o (Tui.with_db d a)
  = Tui.with_db d (Tui.action_new_session o a).
Proof.
  exact (start_new_session_db
           (Some (u "chat_" ++ now o YmdHMS (Tui.clock a))) (Tui.tick a)).
Qed.

Lemma action_save_session_db a :
  Tui.action_save_session o (Tui.with_db d a)
  = Tui.with_db d (Tui.action_save_session o a).
Proof. unfold Tui.action_save_session. cbn. by destruct (truthy _). Qed.

Lemma action_show_history_db a :
  Tui.action_show_history o (Tui.with_db d a)
  = Tui.with_db d (Tui.action_show_history o a).
Proof.
  unfold Tui.action_show_history. cbn. by destruct (Tui.chat_history a).
Qed.

Lemma dispatch_db e a :
  Tui.dispatch o e (Tui.with_db d a) = Tui.with_db d <$> Tui.dispatch o e a.
Proof.
  destruct e as [button_id|input_id|key]; cbn.
  - f_equal. unfold Tui.on_button_pressed.
    repeat case_bool_decide;
      first [ reflexivity | apply handle_send_message_db
            | apply action_new_session_db | apply action_save_session_db
            | apply action_show_history_db ].
  - f_equal. unfold Tui.on_input_submitted.
    case_bool_decide; [apply handle_send_message_db | reflexivity].
  - unfold Tui.key_pressed.
    repeat case_bool_decide; cbn; f_equal;
      first [ reflexivity | apply action_new_session_db
            | apply action_save_session_db | apply action_show_history_db ].
Qed.

End tui_frame.

Lemma load_recent_sessions_db o sessions m1 m2 a :
  Tui.load_recent_sessions o (Tui.with_db (Sqlite.File sessions m2) a)
  = Tui.with_db (Sqlite.File sessions m2)
      (Tui.load_recent_sessions o (Tui.with_db (Sqlite.File sessions m1) a)).
Proof.
  unfold Tui.load_recent_sessions. cbn.
  destruct sessions as [[]|table]; try reflexivity.
  by case_bool_decide.
Qed.

Lemma on_mount_db o sessions m1 m2 a :
  Tui.on_mount o (Tui.with_db (Sqlite.File sessions m2) a)
  = Tui.with_db (Sqlite.File sessions m2)
      (Tui.on_mount o (Tui.with_db (Sqlite.File sessions m1) a)).
Proof.
  unfold Tui.on_mount.
  destruct (run o _ 5) as [child [[]|result]];
    try (destruct child; reflexivity).
  set (before d a :=
         Tui.add_system_message o
           (Tui.Detected (strip (concat (stdout result))))
           (Tui.started [u "goose"; u "--version"] child
              (Tui.add_system_message o Tui.Initializing (Tui.with_db d a)))).
  change (Tui.start_new_session o (Some (u "default"))
            (Tui.load_recent_sessions o (before (Sqlite.File sessions m2) a))
          = Tui.with_db (Sqlite.File sessions m2)
              (Tui.start_new_session o (Some (u "default"))
                 (Tui.load_recent_sessions o
                    (before (Sqlite.File sessions m1) a)))).
  assert (∀ d, before d a = Tui.with_db d (before d a)) as Hbefore
    by (intros d; subst before; destruct child; reflexivity).
  rewrite (Hbefore (Sqlite.File sessions m2)),
    (load_recent_sessions_db o sessions m1 m2), start_new_session_db.
  do 3 f_equal. subst before. destruct child; reflexivity.
Qed.

(** X3: once the terminal application is mounted, no event reads or
    writes the database: an event leaves the database as it is and does to
    the application what it would do with any other database in its
    place.  Mounting reads the sessions table only: its effect does not
    depend on the messages table.  Nothing a user can do loads a stored
    history. *)
Theorem events_ignore_database o :
  (∀ e a a', Tui.dispatch o e a = Some a' →
     Tui.sessions_db a' = Tui.sessions_db a)
  ∧ (∀ e d a,
     Tui.dispatch o e (Tui.with_db d a)
     = Tui.with_db d <$> Tui.dispatch o e a)
  ∧ (∀ sessions m1 m2 a,
     Tui.on_mount o (Tui.with_db (Sqlite.File sessions m2) a)
     = Tui.with_db (Sqlite.File sessions m2)
         (Tui.on_mount o (Tui.with_db (Sqlite.File sessions m1) a))).
Proof.
  split; [|split].
  - intros e a a' He.
    pose proof (dispatch_db o (Tui.sessions_db a) e a) as H.
    rewrite with_db_same, He in H. injection H as ->. reflexivity.
  - intros e d a. apply dispatch_db.
  - apply on_mount_db.
Qed.

Lemma events_ignore_database_witness :
  Tui.sessions_db
    (Tui.on_button_pressed thinking_goose (u "btn-load") demo_app)
  = Sqlite.NoFile true.
Proof.
  apply (proj1 (events_ignore_database thinking_goose)
           (Tui.ButtonPressed (u "btn-load")) demo_app).
  reflexivity.
Defined.

(** ** The chat history *)

Lemma exchanges_app h1 h2 :
  exchanges h1 → exchanges h2 → exchanges (h1 ++ h2).
Proof.
  induction 1; intros H2; simpl;
    [done | apply exchanges_question; auto | apply exchanges_answer; auto].
Qed.

Lemma send_to_goose_exchange o message_ a :
  ∃ tail,
    Tui.chat_history (Tui.send_to_goose o message_ a)
    = Tui.chat_history a ++ tail
    ∧ exchanges tail.
Proof.
  unfold Tui.send_to_goose.
  destruct (truthy (strip message_)); cbn [negb].
  2:{ exists []. split; [by rewrite app_nil_r | constructor]. }
  destruct (popen o _) as [e|process].
  - eexists [_].
    split; [by destruct e | apply exchanges_question, exchanges_nil].
  - destruct (truthy (join _ _)), (negb _), (truthy (stderr process));
      eexists [_; _]; (split; [cbn; by rewrite <- app_assoc|]);
      apply exchanges_answer, exchanges_nil.
Qed.

Lemma start_new_session_history o name a :
  Tui.chat_history (Tui.start_new_session o name a) = [].
Proof.
  unfold Tui.start_new_session.
  by destruct (run o _ 10) as [[] []], (truthy (default [] name)).
Qed.

Lemma handle_send_message_exchanges o a :
  exchanges (Tui.chat_history a) →
  exchanges (Tui.chat_history (Tui.handle_send_message o a)).
Proof.
  intros H. unfold Tui.handle_send_message.
  destruct (truthy _); [|done]. cbn.
  destruct (send_to_goose_exchange o (strip (Tui.chat_input a)) a)
    as (tail & -> & Htail).
  by apply exchanges_app.
Qed.

Lemma tui_step_exchanges o a a' :
  tui_step o a a' →
  exchanges (Tui.chat_history a) → exchanges (Tui.chat_history a').
Proof.
  intros [->|[e He]] H.
  - unfold Tui.on_mount.
    destruct (run o _ 5) as [[] [[]|result]]; cbn; try done;
      rewrite start_new_session_history; constructor.
  - destruct e as [button_id|input_id|key]; cbn in He.
    + injection He as <-. unfold Tui.on_button_pressed.
      repeat case_bool_decide; try done;
        first [ by apply handle_send_message_exchanges
              | unfold Tui.action_new_session;
                rewrite start_new_session_history; constructor
              | unfold Tui.action_save_session; by destruct (truthy _)
              | unfold Tui.action_show_history;
                by destruct (Tui.chat_history a) eqn:E; cbn; rewrite ?E
              | constructor ].
    + injection He as <-. unfold Tui.on_input_submitted.
      case_bool_decide; [by apply handle_send_message_exchanges | done].
    + unfold Tui.key_pressed in He.
      repeat case_bool_decide; try done; injection He as <-; try done;
        first [ unfold Tui.action_new_session;
                rewrite start_new_session_history; constructor
              | unfold Tui.action_save_session; by destruct (truthy _)
              | unfold Tui.action_show_history;
                by destruct (Tui.chat_history a) eqn:E; cbn; rewrite ?E ].
Qed.

(** X4: whatever the user does and whatever goose answers, the chat
    history of the terminal application stays a sequence of exchanges: a
    user message, alone when the invocation failed, or followed by exactly
    one assistant message.  System notices never enter it and no answer
    stands without its question. *)
Theorem history_is_exchanges o a a' :
  exchanges (Tui.chat_history a) →
  rtc (tui_step o) a a' →
  exchanges (Tui.chat_history a').
Proof.
  intros H Hsteps. induction Hsteps as [|a1 a2 a3 Hstep _ IH]; [done|].
  apply IH. by apply (tui_step_exchanges o a1).
Qed.

Lemma history_is_exchanges_witness :
  exchanges
    (Tui.chat_history
       (Tui.handle_send_message thinking_goose
          (Tui.with_input (u "hello") demo_app))).
Proof.
  apply (history_is_exchanges thinking_goose
           (Tui.with_input (u "hello") demo_app)).
  - constructor.
  - apply rtc_once. right.
    by exists (Tui.InputSubmitted (u "chat-input")).
Defined.

(** ** Starting a session *)

Lemma name_or_now_truthy o name k : truthy (name_or_now o name k).
Proof.
  unfold name_or_now, or_else.
  destruct name as [n|]; [|done]. by destruct (truthy n) eqn:E; rewrite ?E.
Qed.

Lemma start_new_session_effect o name a :
  let n := name_or_now o name (Tui.clock a) in
  let a' := Tui.start_new_session o name a in
  truthy n
  ∧ Tui.current_session_name a' = n
  ∧ Tui.session_status a' = n
  ∧ Tui.chat_history a' = []
  ∧ Tui.chat_input a' = Tui.chat_input a
  ∧ Tui.session_list a' = Tui.session_list a
  ∧ ∀ message_,
      Tui.command (Tui.current_session_name a') message_
      = [u "goose"; u "session"; u "resume"; u "-n"; n; u "-t"; message_].
Proof.
  intros n a'. subst a'.
  assert (truthy n) as Hn by apply name_or_now_truthy.
  unfold Tui.start_new_session. fold n.
  destruct (run o _ 10) as [[] []], (truthy (default [] name)); cbn;
    repeat split; try done;
    intros message_; unfold Tui.command; by destruct (truthy n).
Qed.

(** X5: [start_new_session] makes the session current whether or not
    goose could initialize it: whatever the start command does (it runs,
    fails, cannot be found or times out), the name, which is never empty,
    becomes the current session and the text of the status line, the chat
    history is emptied, the input field and the sidebar stay as they were,
    and the next prompt resumes that session. *)
Theorem start_new_session_switches o name a :
  let n := name_or_now o name (Tui.clock a) in
  let a' := Tui.start_new_session o name a in
  truthy n
  ∧ Tui.current_session_name a' = n
  ∧ Tui.session_status a' = n
  ∧ Tui.chat_history a' = []
  ∧ Tui.chat_input a' = Tui.chat_input a
  ∧ Tui.session_list a' = Tui.session_list a
  ∧ ∀ message_,
      Tui.command (Tui.current_session_name a') message_
      = [u "goose"; u "session"; u "resume"; u "-n"; n; u "-t"; message_].
Proof. apply start_new_session_effect. Qed.

Lemma start_new_session_appends o name a :
  ∃ tail,
    Tui.chat_messages (Tui.start_new_session o name a)
    = Tui.chat_messages a ++ tail.
Proof.
  unfold Tui.start_new_session.
  destruct (run o _ 10) as [[] []], (truthy (default [] name));
    eexists; cbn; by rewrite <- app_assoc.
Qed.

Lemma load_recent_sessions_appends o a :
  ∃ tail,
    Tui.chat_messages (Tui.load_recent_sessions o a)
    = Tui.chat_messages a ++ tail.
Proof.
  unfold Tui.load_recent_sessions.
  destruct (negb _); [by eexists|].
  destruct (Sqlite.scan_sessions _) as [[]|table]; try by eexists.
  case_bool_decide; [exists []; cbn; by rewrite app_nil_r | by eexists].
Qed.

Lemma on_mount_effect o a :
  let check := run o [u "goose"; u "--version"] 5 in
  (∀ result, check.2 = inr result →
     Tui.current_session_name (Tui.on_mount o a) = u "default"
     ∧ Tui.chat_history (Tui.on_mount o a) = []
     ∧ ∃ rest,
         Tui.chat_messages (Tui.on_mount o a)
         = Tui.chat_messages a
             ++ Tui.Bubble (u "system") Tui.Initializing
                  (now o HMS (Tui.clock a))
             :: Tui.Bubble (u "system")
                  (Tui.Detected (strip (concat (stdout result))))
                  (now o HMS (S (Tui.clock a)))
             :: rest)
  ∧ (∀ e, check.2 = inl e →
     Tui.current_session_name (Tui.on_mount o a) = Tui.current_session_name a
     ∧ Tui.chat_history (Tui.on_mount o a) = Tui.chat_history a
     ∧ Tui.session_list (Tui.on_mount o a) = Tui.session_list a
     ∧ ∃ notice,
         Tui.chat_messages (Tui.on_mount o a)
         = Tui.chat_messages a
             ++ [Tui.Bubble (u "system") Tui.Initializing
                   (now o HMS (Tui.clock a));
                 Tui.Bubble (u "system") notice
                   (now o HMS (S (Tui.clock a)))]
         ∧ (notice = Tui.NotFound ∨ notice = Tui.MountError e)).
Proof.
  intros check. subst check. unfold Tui.on_mount.
  destruct (run o _ 5) as [child [e|result]]; cbn [snd]; split;
    try (by intros ? [=]).
  - intros e' [= <-]. destruct e, child; repeat split; eexists;
      (split; [cbn; by rewrite <- app_assoc | auto]).
  - intros result' [= <-].
    destruct (start_new_session_effect o (Some (u "default"))
                (Tui.load_recent_sessions o
                   (Tui.add_system_message o
                      (Tui.Detected (strip (concat (stdout result))))
                      (Tui.started [u "goose"; u "--version"] child
                         (Tui.add_system_message o Tui.Initializing a)))))
      as (_ & Hname & _ & Hhistory & _).
    split; [exact Hname|]. split; [exact Hhistory|].
    match goal with |- context [Tui.start_new_session o ?n ?x] =>
      destruct (start_new_session_appends o n x) as [tail2 ->] end.
    match goal with |- context [Tui.load_recent_sessions o ?x] =>
      destruct (load_recent_sessions_appends o x) as [tail1 ->] end.
    exists (tail1 ++ tail2). destruct child; cbn; by rewrite <- !app_assoc.
Qed.

(** X6: mounting the application.  When [goose --version] ends within 5
    time units, whatever its output and exit code, goose is reported as
    detected and the session "default" becomes current with an empty
    history, whatever the database holds and whether or not the session
    could be initialized.  When the check raises or takes longer, nothing
    but two system notices is added: no session is started, the sidebar
    is not loaded and the history stays as it was. *)
Theorem on_mount_outcome o a :
  let check := run o [u "goose"; u "--version"] 5 in
  (∀ result, check.2 = inr result →
     Tui.current_session_name (Tui.on_mount o a) = u "default"
     ∧ Tui.chat_history (Tui.on_mount o a) = []
     ∧ ∃ rest,
         Tui.chat_messages (Tui.on_mount o a)
         = Tui.chat_messages a
             ++ Tui.Bubble (u "system") Tui.Initializing
                  (now o HMS (Tui.clock a))
             :: Tui.Bubble (u "system")
                  (Tui.Detected (strip (concat (stdout result))))
                  (now o HMS (S (Tui.clock a)))
             :: rest)
  ∧ (∀ e, check.2 = inl e →
     Tui.current_session_name (Tui.on_mount o a) = Tui.current_session_name a
     ∧ Tui.chat_history (Tui.on_mount o a) = Tui.chat_history a
     ∧ Tui.session_list (Tui.on_mount o a) = Tui.session_list a
     ∧ ∃ notice,
         Tui.chat_messages (Tui.on_mount o a)
         = Tui.chat_messages a
             ++ [Tui.Bubble (u "system") Tui.Initializing
                   (now o HMS (Tui.clock a));
                 Tui.Bubble (u "system") notice
                   (now o HMS (S (Tui.clock a)))]
         ∧ (notice = Tui.NotFound ∨ notice = Tui.MountError e)).
Proof. apply on_mount_effect. Qed.

Lemma on_mount_outcome_witness :
  Tui.current_session_name (Tui.on_mount thinking_goose demo_app)
  = u "default".
Proof.
  eapply (proj1 (on_mount_outcome thinking_goose demo_app)).
  reflexivity.
Defined.

(** ** A session without messages *)

Lemma filter_none {A} (P : A → Prop) `{!∀ x, Decision (P x)} (l : list A) :
  Forall (λ x, ¬ P x) l → filter P l = [].
Proof.
  induction 1 as [|x l Hx _ IH]; [done|].
  rewrite filter_cons. by case_decide.
Qed.

(** X7: asking for the history of a session of which the table has no
    row is not an error.  The web program answers an empty list with
    status 200; the terminal program empties the chat, reports 0 loaded
    messages and makes the unknown name the current session, while the
    chat history it keeps in memory stays that of the previous session. *)
Theorem unknown_session_history name sessions table :
  Forall (λ r, Sqlite.session_name r ≠ name) table →
  (∀ s, Web.sessions_db s = Sqlite.File sessions (inr table) →
     Web.api_session_history name s = (s, (Web.Messages [], 200%nat)))
  ∧ (∀ o a, Tui.sessions_db a = Sqlite.File sessions (inr table) →
     let a' := Tui.load_session_history o name a in
     Tui.chat_messages a'
     = [Tui.Bubble (u "system") (Tui.LoadedHistory 0 name)
          (now o HMS (Tui.clock a))]
     ∧ Tui.current_session_name a' = name
     ∧ Tui.chat_history a' = Tui.chat_history a).
Proof.
  intros Hnone.
  assert (Sqlite.select_history name table = []) as Hempty.
  { unfold Sqlite.select_history.
    by rewrite (filter_none (λ r, Sqlite.session_name r = name) table). }
  split.
  - intros s Hdb. unfold Web.api_session_history. rewrite Hdb.
    cbn [Sqlite.exists_ negb Sqlite.connect Sqlite.scan_messages].
    by rewrite Hempty.
  - intros o a Hdb a'. subst a'. unfold Tui.load_session_history.
    cbn [Tui.sessions_db Tui.with_db]. rewrite Hdb.
    cbn [Sqlite.connect Sqlite.scan_messages]. by rewrite Hempty.
Qed.

Lemma unknown_session_history_witness :
  let s := fresh_server (Sqlite.File (inr []) (inr in_order)) in
  Web.api_session_history (u "nobody") s = (s, (Web.Messages [], 200%nat)).
Proof.
  intros s.
  apply (proj1 (unknown_session_history (u "nobody") (inr []) in_order
                  ltac:(by repeat constructor))).
  reflexivity.
Defined.

(** ** The configuration over time *)





(** X9: configuration updates compose and never remove a key.  Posting
    [d1] and then [d2] leaves the server as posting their merge (the
    values of [d2] first) at once; posting the same body again changes
    nothing; every key of the configuration is still there after an
    update, and reading the configuration returns what the last update
    returned. *)
Theorem config_updates_compose d1 d2 s :
  (Web.api_config_post d2 (Web.api_config_post d1 s).1).1
  = (Web.api_config_post (d2 ∪ d1) s).1
  ∧ (Web.api_config_post d1 (Web.api_config_post d1 s).1).1
    = (Web.api_config_post d1 s).1
  ∧ dom (Web.config s) ⊆ dom (Web.config (Web.api_config_post d1 s).1)
  ∧ (Web.api_config_get (Web.api_config_post d1 s).1).2
    = (Web.Config (Web.config (Web.api_config_post d1 s).1), 200%nat).
Proof.
  unfold Web.api_config_post, Web.with_config, Web.with_config_file. cbn.
  split; [by rewrite (assoc_L (∪))|].
  split; [by rewrite (assoc_L (∪)), (idemp_L (∪))|].
  split; [|done]. rewrite dom_union. set_solver.
Qed.

(** ** What the server sends *)

Lemma echo_counts to m t :
  filter question [(to, Web.message (u "user") m t)]
  = [(to, Web.message (u "user") m t)]
  ∧ filter final [(to, Web.message (u "user") m t)] = [].
Proof.
  split; rewrite filter_cons, filter_nil; case_decide as H; try done;
    first [by vm_compute in H | exfalso; by apply H].
Qed.

Lemma answer_counts to r t :
  filter question [(to, Web.message (u "assistant") r t)] = []
  ∧ filter final [(to, Web.message (u "assistant") r t)]
    = [(to, Web.message (u "assistant") r t)].
Proof.
  split; rewrite filter_cons, filter_nil; case_decide as H; try done;
    first [by vm_compute in H | exfalso; by apply H].
Qed.

Lemma error_counts to e :
  filter question [(to, Web.error (Web.StrOf e))] = []
  ∧ filter final [(to, Web.error (Web.StrOf e))]
    = [(to, Web.error (Web.StrOf e))].
Proof.
  split; rewrite filter_cons, filter_nil; case_decide as H; try done;
    first [by vm_compute in H | exfalso; by apply H].
Qed.

Lemma partial_counts to line :
  filter question [(to, Web.partial_response line)] = []
  ∧ filter final [(to, Web.partial_response line)] = [].
Proof. split; rewrite filter_cons, filter_nil; by case_decide. Qed.

Ltac web_fields :=
  cbn [Web.sent Web.threads Web.tick Web.emit Web.with_sent Web.with_threads
       Web.with_spawned Web.replace_thread Web.complete Web.started].

(** Every step of the server appends to what was sent. *)
Lemma step_sent o s s' :
  Web.step o s s' →
  ∃ tail, Web.sent s' = Web.sent s ++ tail
          ∧ Forall well_addressed tail
          ∧ (length (Web.threads s') + length (filter final tail)
             = length (Web.threads s) + length (filter question tail))%nat.
Proof.
  destruct 1 as
    [data s session_name message_ s1 Haccept
    |data s Haccept
    |i s session_name message_ process Hi Hpopen
    |i s session_name message_ e Hi Hpopen
    |i s session_name message_ line unread response_lines Hi
    |i s session_name message_ response_lines Hi].
  - unfold Web.accept in Haccept. destruct (negb _); [done|].
    injection Haccept as <- <- <-. eexists [_]. web_fields.
    split; [done|]. split; [by repeat constructor|].
    destruct (echo_counts Web.Client (default [] (Web.data_message data))
                (now o Iso (Web.clock s))) as [-> ->].
    rewrite length_app. cbn [length]. lia.
  - exists []. by rewrite app_nil_r.
  - exists []. web_fields. by rewrite app_nil_r, length_insert.
  - eexists [_]. web_fields. split; [done|]. split; [by repeat constructor|].
    destruct (error_counts Web.Everyone e) as [-> ->].
    rewrite length_delete by eauto.
    apply lookup_lt_Some in Hi. cbn [length]. lia.
  - unfold Web.read_line. destruct (truthy (strip line)); web_fields.
    + eexists [_]. split; [done|]. split; [by repeat constructor|].
      destruct (partial_counts Web.Everyone (strip line)) as [-> ->].
      by rewrite length_insert.
    + exists []. by rewrite app_nil_r, length_insert.
  - eexists [_]. web_fields. split; [done|]. split; [by repeat constructor|].
    destruct (answer_counts Web.Everyone
                (join (u (String "010" "")) response_lines)
                (now o Iso (Web.clock s))) as [-> ->].
    rewrite length_delete by eauto.
    apply lookup_lt_Some in Hi. cbn [length]. lia.
Qed.

Lemma serve_sent o r s s' :
  Web.serve o r s = Some s' →
  ∃ tail, Web.sent s' = Web.sent s ++ tail
          ∧ Forall well_addressed tail
          ∧ Web.threads s' = Web.threads s
          ∧ filter final tail = [] ∧ filter question tail = [].
Proof.
  destruct r; cbn; intros Hs';
    try (injection Hs' as <-; exists []; by rewrite app_nil_r).
  - destruct (Web.update data (Web.config s)) as [[c []]|]; [..|done];
      injection Hs' as <-; exists []; by rewrite app_nil_r.
  - injection Hs' as <-. exists []. rewrite app_nil_r.
    unfold Web.api_sessions.
    destruct (negb _); [done|]. by destruct (Sqlite.scan_sessions _).
  - injection Hs' as <-. exists []. rewrite app_nil_r.
    unfold Web.api_session_history.
    destruct (negb _); [done|]. by destruct (Sqlite.scan_messages _).
  - injection Hs' as <-. eexists [_].
    split; [done|]. split; [by repeat constructor|].
    split; [done|]. split; rewrite filter_cons, filter_nil; by case_decide.
  - injection Hs' as <-. unfold Web.handle_new_session.
    destruct (run o _ 10) as [[] []], (truthy _); eexists [_];
      (split; [done|]); (split; [by repeat constructor|]);
      (split; [done|]); split; rewrite filter_cons, filter_nil;
      by case_decide.
Qed.

Lemma run_sent o s s' :
  Web.run o s s' →
  ∃ tail, Web.sent s' = Web.sent s ++ tail
          ∧ Forall well_addressed tail
          ∧ (length (Web.threads s') + length (filter final tail)
             = length (Web.threads s) + length (filter question tail))%nat.
Proof.
  destruct 1 as [r s s' Hs'|s s' Hstep]; [|by apply (step_sent o)].
  destruct (serve_sent o r s s' Hs')
    as (tail & Hsent & Htail & Hthreads & Hf & Hq).
  exists tail. by rewrite Hthreads, Hf, Hq.
Qed.

Lemma steps_run o s s' : rtc (Web.step o) s s' → rtc (Web.run o) s s'.
Proof.
  induction 1 as [|s1 s2 s3 Hstep _ IH]; [done|].
  eapply rtc_l; [by apply Web.run_step | done].
Qed.

(** X10: to whom the server speaks.  In every run of the server, the
    echo of a prompt, the connection status and the outcome of a
    new-session event go to the one client that asked, while every partial
    response, every assistant message and every error of an invocation
    goes to all connected clients. *)
Theorem replies_are_broadcast o s s' :
  Forall well_addressed (Web.sent s) →
  rtc (Web.run o) s s' →
  Forall well_addressed (Web.sent s').
Proof.
  intros H Hrun. induction Hrun as [|s1 s2 s3 Hstep _ IH]; [done|].
  apply IH. destruct (run_sent o s1 s2 Hstep) as (tail & -> & Htail & _).
  by apply Forall_app.
Qed.

Lemma replies_are_broadcast_witness :
  Forall well_addressed
    (Web.sent (Web.handle_message thinking_goose hello_demo
                 (fresh_server (Sqlite.NoFile true)))).
Proof.
  apply (replies_are_broadcast thinking_goose
           (fresh_server (Sqlite.NoFile true))).
  - apply Forall_nil_2.
  - apply steps_run, handle_message_schedule.
Defined.

(** X11: every prompt is answered once.  In every run of the server from
    a state without threads in which nothing was sent, the number of
    prompts echoed equals the number of threads still at work plus the
    number of invocations ended, each by one assistant message or by one
    error: no accepted prompt is dropped and none is answered twice. *)
Theorem every_prompt_answered_once o s s' :
  length (filter question (Web.sent s))
  = (length (Web.threads s) + length (filter final (Web.sent s)))%nat →
  rtc (Web.run o) s s' →
  length (filter question (Web.sent s'))
  = (length (Web.threads s') + length (filter final (Web.sent s')))%nat.
Proof.
  intros H Hrun. induction Hrun as [|s1 s2 s3 Hstep _ IH]; [done|].
  apply IH. destruct (run_sent o s1 s2 Hstep) as (tail & -> & _ & Hcount).
  rewrite !filter_app, !length_app. lia.
Qed.

Lemma every_prompt_answered_once_witness :
  length (filter question (Web.sent both_running))
  = (length (Web.threads both_running)
     + length (filter final (Web.sent both_running)))%nat.
Proof.
  destruct both_running_reachable as (s0 & Hthreads & Hsent & Hsteps).
  apply (every_prompt_answered_once two_prompts s0).
  - by rewrite Hthreads, Hsent.
  - by apply steps_run.
Defined.

(** ** The commands the server starts *)

Lemma echoed_app sent tail m : echoed sent m → echoed (sent ++ tail) m.
Proof.
  intros [Hm [t Ht]]. split; [done|]. exists t. apply elem_of_app. by left.
Qed.

Lemma server_command_app sent tail cmd :
  server_command sent cmd → server_command (sent ++ tail) cmd.
Proof.
  intros [?|(n & m & -> & Hm)]; [by left|]. right.
  exists n, m. split; [done|]. by apply echoed_app.
Qed.

Lemma serve_effect o r s s' :
  Web.serve o r s = Some s' →
  ∃ tail new,
    Web.sent s' = Web.sent s ++ tail
    ∧ Web.threads s' = Web.threads s
    ∧ Web.spawned s' = Web.spawned s ++ new
    ∧ Forall (λ cmd, ∃ n, truthy n ∧ cmd = start_cmd n) new.
Proof.
  destruct r; cbn [Web.serve]; intros Hs'.
  - injection Hs' as <-. exists [], []. rewrite !app_nil_r. by split_and!.
  - injection Hs' as <-. exists [], []. rewrite !app_nil_r. by split_and!.
  - cbn in Hs'.
    destruct (Web.update data (Web.config s)) as [[c []]|]; [..|done];
      injection Hs' as <-; exists [], []; rewrite !app_nil_r; by split_and!.
  - injection Hs' as <-. exists [], []. rewrite !app_nil_r.
    unfold Web.api_sessions.
    destruct (negb _); [by split_and!|].
    by destruct (Sqlite.scan_sessions _); split_and!.
  - injection Hs' as <-. exists [], []. rewrite !app_nil_r.
    unfold Web.api_session_history.
    destruct (negb _); [by split_and!|].
    by destruct (Sqlite.scan_messages _); split_and!.
  - injection Hs' as <-. exists [], []. rewrite !app_nil_r. by split_and!.
  - injection Hs' as <-. eexists [_], []. rewrite !app_nil_r. by split_and!.
  - injection Hs' as <-. unfold Web.handle_new_session.
    pose proof (name_or_now_truthy o (Web.data_name data) (Web.clock s))
      as Hname.
    destruct (run o _ 10) as [[] result], (truthy (default [] _)),
      result; first
      [ eexists [_], [_]; split_and!; try done;
        repeat constructor; eexists; by split
      | eexists [_], []; rewrite !app_nil_r; by split_and! ].
Qed.

Lemma run_commands o s s' :
  Web.run o s s' →
  Forall (server_command (Web.sent s)) (Web.spawned s)
  ∧ Forall (λ t, echoed (Web.sent s) (thread_prompt t)) (Web.threads s) →
  Forall (server_command (Web.sent s')) (Web.spawned s')
  ∧ Forall (λ t, echoed (Web.sent s') (thread_prompt t)) (Web.threads s').
Proof.
  intros Hrun [Hcmds Hthreads].
  assert (∀ tail,
            Forall (server_command (Web.sent s ++ tail)) (Web.spawned s)
            ∧ Forall (λ t, echoed (Web.sent s ++ tail) (thread_prompt t))
                (Web.threads s)) as Hmono.
  { intros tail. split; (eapply Forall_impl; [done|]); cbn; intros ?.
    - apply server_command_app.
    - apply echoed_app. }
  assert (∀ i t, Web.threads s !! i = Some t →
                 echoed (Web.sent s) (thread_prompt t)) as Hprompt.
  { intros i t Hi.
    exact (Forall_lookup_1
             (λ t, echoed (Web.sent s) (thread_prompt t)) _ _ _ Hthreads Hi). }
  destruct Hrun as [r s s' Hs'|s s' Hstep].
  - destruct (serve_effect o r s s' Hs')
      as (tail & new & -> & -> & -> & Hnew).
    split; [|apply Hmono]. apply Forall_app. split; [apply Hmono|].
    eapply Forall_impl; [done|]. by left.
  - destruct Hstep as
      [data s session_name message_ s1 Haccept
      |data s Haccept
      |i s session_name message_ process Hi Hpopen
      |i s session_name message_ e Hi Hpopen
      |i s session_name message_ line unread response_lines Hi
      |i s session_name message_ response_lines Hi].
    + unfold Web.accept in Haccept.
      destruct (truthy (default [] (Web.data_message data))) eqn:Hm;
        [|done].
      cbn [negb] in Haccept. injection Haccept as <- <- <-.
      web_fields. cbn [Web.spawned]. split; [apply Hmono|].
      apply Forall_app. split; [apply Hmono|].
      apply Forall_singleton. cbn [thread_prompt].
      split; [by rewrite Hm|].
      eexists. apply elem_of_app. right. by apply list_elem_of_singleton.
    + done.
    + apply Hprompt in Hi. web_fields. cbn [Web.spawned Web.sent].
      split.
      * apply Forall_app. split; [done|]. apply Forall_singleton.
        right. by exists session_name, message_.
      * by apply Forall_insert.
    + web_fields. cbn [Web.spawned]. split; [apply Hmono|].
      apply Forall_delete, Hmono.
    + apply Hprompt in Hi. unfold Web.read_line.
      destruct (truthy (strip line)); web_fields; cbn [Web.spawned].
      * split; [apply Hmono|].
        apply Forall_insert; [apply Hmono | by apply echoed_app].
      * split; [done|]. by apply Forall_insert.
    + web_fields. cbn [Web.spawned]. split; [apply Hmono|].
      apply Forall_delete, Hmono.
Qed.

(** X12: the server starts goose and nothing else.  In every run from a
    state without threads in which no process was started, each command
    line the server starts is either [goose session start -n N] with a
    name that is not empty, or [goose session resume -n S -t P] where [P]
    is a prompt that is not empty and was echoed to its sender: the prompt
    is one argument of the command, passed as the client sent it. *)
Theorem only_goose_commands o s s' :
  Web.threads s = [] → Web.spawned s = [] →
  rtc (Web.run o) s s' →
  Forall (server_command (Web.sent s')) (Web.spawned s').
Proof.
  intros Hthreads Hspawned Hrun.
  cut (Forall (server_command (Web.sent s')) (Web.spawned s')
       ∧ Forall (λ t, echoed (Web.sent s') (thread_prompt t))
           (Web.threads s')); [by intros []|].
  revert s' Hrun. apply rtc_ind_r.
  - by rewrite Hthreads, Hspawned.
  - intros s1 s2 _ Hstep IH. by apply (run_commands o s1).
Qed.

Lemma only_goose_commands_witness :
  let s := Web.handle_message thinking_goose hello_demo
             (fresh_server (Sqlite.NoFile true)) in
  Forall (server_command (Web.sent s)) (Web.spawned s).
Proof.
  apply (only_goose_commands thinking_goose
           (fresh_server (Sqlite.NoFile true))); [done..|].
  apply steps_run, handle_message_schedule.
Defined.

(** ** The commands the terminal program starts *)

Lemma start_new_session_spawned o name a :
  ∃ new,
    Tui.spawned (Tui.start_new_session o name a) = Tui.spawned a ++ new
    ∧ Forall terminal_command new.
Proof.
  unfold Tui.start_new_session.
  pose proof (name_or_now_truthy o name (Tui.clock a)) as Hname.
  destruct (run o _ 10) as [[] []], (truthy (default [] name));
    first
      [ eexists [_]; split; [reflexivity|];
        apply Forall_singleton; right; left; eexists; by split
      | exists []; by rewrite app_nil_r ].
Qed.

Lemma send_to_goose_spawned o message_ a :
  ∃ new,
    Tui.spawned (Tui.send_to_goose o message_ a) = Tui.spawned a ++ new
    ∧ Forall terminal_command new.
Proof.
  unfold Tui.send_to_goose.
  destruct (truthy (strip message_)) eqn:Hmessage; cbn [negb].
  2:{ exists []. by rewrite app_nil_r. }
  destruct (popen o _) as [e|process].
  - exists []. rewrite app_nil_r. by destruct e.
  - eexists [_]. split.
    + by destruct (truthy (join _ _)), (negb _), (truthy (stderr process)).
    + apply Forall_singleton. right. right. eexists _, _.
      split; [|reflexivity]. by rewrite Hmessage.
Qed.

Lemma handle_send_message_spawned o a :
  ∃ new,
    Tui.spawned (Tui.handle_send_message o a) = Tui.spawned a ++ new
    ∧ Forall terminal_command new.
Proof.
  unfold Tui.handle_send_message. destruct (truthy _).
  - apply send_to_goose_spawned.
  - exists []. by rewrite app_nil_r.
Qed.

Lemma load_recent_sessions_spawned o a :
  Tui.spawned (Tui.load_recent_sessions o a) = Tui.spawned a.
Proof.
  unfold Tui.load_recent_sessions. destruct (negb _); [done|].
  destruct (Sqlite.scan_sessions _) as [[]|table]; try done.
  by case_bool_decide.
Qed.

Ltac nothing_spawned :=
  exists []; rewrite app_nil_r; split; [reflexivity | constructor].

Lemma tui_step_spawned o a a' :
  tui_step o a a' →
  ∃ new, Tui.spawned a' = Tui.spawned a ++ new ∧ Forall terminal_command new.
Proof.
  assert (∀ a, ∃ new,
            Tui.spawned (Tui.action_new_session o a) = Tui.spawned a ++ new
            ∧ Forall terminal_command new) as Hnew.
  { intros a0. unfold Tui.action_new_session.
    apply (start_new_session_spawned o _ (Tui.tick a0)). }
  assert (∀ a, Tui.spawned (Tui.action_save_session o a) = Tui.spawned a)
    as Hsave.
  { intros a0. unfold Tui.action_save_session. by destruct (truthy _). }
  assert (∀ a, Tui.spawned (Tui.action_show_history o a) = Tui.spawned a)
    as Hshow.
  { intros a0. unfold Tui.action_show_history.
    by destruct (Tui.chat_history a0). }
  intros [->|[e He]].
  - unfold Tui.on_mount.
    destruct (run o _ 5) as [child [e|result]].
    + destruct child, e; first
        [ nothing_spawned
        | eexists [_]; split; [reflexivity|];
          apply Forall_singleton; by left ].
    + match goal with |- context [Tui.start_new_session o ?n ?x] =>
        destruct (start_new_session_spawned o n x) as (new & -> & Hnew')
      end.
      rewrite load_recent_sessions_spawned.
      destruct child; cbn.
      * eexists (_ :: new). rewrite <- app_assoc. split; [reflexivity|].
        constructor; [by left | done].
      * by exists new.
  - destruct e as [button_id|input_id|key]; cbn in He.
    + injection He as <-. unfold Tui.on_button_pressed.
      repeat case_bool_decide;
        rewrite ?Hsave, ?Hshow;
        first [ apply handle_send_message_spawned | apply Hnew
              | nothing_spawned ].
    + injection He as <-. unfold Tui.on_input_submitted.
      case_bool_decide; [apply handle_send_message_spawned | nothing_spawned].
    + unfold Tui.key_pressed in He.
      repeat case_bool_decide; try done; injection He as <-;
        rewrite ?Hsave, ?Hshow; first [ apply Hnew | nothing_spawned ].
Qed.

(** X13: the terminal program starts goose and nothing else, and never
    with a blank prompt.  Whatever the user does, each command line it
    starts is [goose --version], [goose session start -n N] with a name
    that is not empty, or a prompt that is more than white space, passed
    as one argument to [goose session resume -n S -t] or to
    [goose run -t]. *)
Theorem terminal_commands o a a' :
  Forall terminal_command (Tui.spawned a) →
  rtc (tui_step o) a a' →
  Forall terminal_command (Tui.spawned a').
Proof.
  intros H Hsteps. induction Hsteps as [|a1 a2 a3 Hstep _ IH]; [done|].
  apply IH. destruct (tui_step_spawned o a1 a2 Hstep) as (new & -> & Hnew).
  by apply Forall_app.
Qed.

Lemma terminal_commands_witness :
  Forall terminal_command
    (Tui.spawned
       (Tui.handle_send_message thinking_goose
          (Tui.with_input (u "hello") demo_app))).
Proof.
  apply (terminal_commands thinking_goose
           (Tui.with_input (u "hello") demo_app)).
  - apply Forall_nil_2.
  - apply rtc_once. right.
    by exists (Tui.InputSubmitted (u "chat-input")).
Defined.

(** ** Session names *)

Lemma send_to_goose_session o message_ a :
  Tui.current_session_name (Tui.send_to_goose o message_ a)
  = Tui.current_session_name a.
Proof.
  unfold Tui.send_to_goose. destruct (truthy (strip message_)); [|done].
  cbn [negb]. destruct (popen o _) as [[]|process]; try done.
  by destruct (truthy (join _ _)), (negb _), (truthy (stderr process)).
Qed.

Lemma handle_send_message_session o a :
  Tui.current_session_name (Tui.handle_send_message o a)
  = Tui.current_session_name a.
Proof.
  unfold Tui.handle_send_message. destruct (truthy _); [|done].
  apply send_to_goose_session.
Qed.

(** X14: the names of the sessions of the terminal program.  Mounting
    the application leaves the current session as it is or makes it
    "default"; an event leaves it as it is or, for a new chat, makes it
    "chat_" followed by the time of the event.  The name
    [start_new_session] generates when it is given none is never used:
    every caller passes a name. *)
Theorem terminal_session_names o a a' :
  tui_step o a a' →
  Tui.current_session_name a' = Tui.current_session_name a
  ∨ Tui.current_session_name a' = u "default"
  ∨ Tui.current_session_name a' = u "chat_" ++ now o YmdHMS (Tui.clock a).
Proof.
  assert (∀ a, Tui.current_session_name (Tui.action_new_session o a)
               = u "chat_" ++ now o YmdHMS (Tui.clock a)) as Hnew.
  { intros a0. unfold Tui.action_new_session.
    by destruct (start_new_session_effect o
                   (Some (u "chat_" ++ now o YmdHMS (Tui.clock a0)))
                   (Tui.tick a0)) as (_ & -> & _). }
  assert (∀ a, Tui.current_session_name (Tui.action_save_session o a)
               = Tui.current_session_name a) as Hsave.
  { intros a0. unfold Tui.action_save_session. by destruct (truthy _). }
  assert (∀ a, Tui.current_session_name (Tui.action_show_history o a)
               = Tui.current_session_name a) as Hshow.
  { intros a0. unfold Tui.action_show_history.
    by destruct (Tui.chat_history a0). }
  intros [->|[e He]].
  - destruct (run o [u "goose"; u "--version"] 5) as [child [e|result]] eqn:E.
    + left. eapply (proj2 (on_mount_effect o a)). by rewrite E.
    + right. left. eapply (proj1 (on_mount_effect o a)). by rewrite E.
  - destruct e as [button_id|input_id|key]; cbn in He.
    + injection He as <-. unfold Tui.on_button_pressed.
      repeat case_bool_decide;
        rewrite ?Hsave, ?Hshow, ?Hnew, ?handle_send_message_session; auto.
    + injection He as <-. unfold Tui.on_input_submitted.
      case_bool_decide; rewrite ?handle_send_message_session; auto.
    + unfold Tui.key_pressed in He.
      repeat case_bool_decide; try done; injection He as <-;
        rewrite ?Hsave, ?Hshow, ?Hnew; auto.
Qed.

Lemma terminal_session_names_witness :
  let a := Tui.on_button_pressed thinking_goose (u "btn-new") demo_app in
  Tui.current_session_name a = Tui.current_session_name demo_app
  ∨ Tui.current_session_name a = u "default"
  ∨ Tui.current_session_name a = u "chat_t0".
Proof.
  apply (terminal_session_names thinking_goose demo_app).
  right. by exists (Tui.ButtonPressed (u "btn-new")).
Defined.

(** X15: a session name that is missing or empty.  A send-message event
    without a session resumes the session "default", but one whose
    session is the empty string resumes the session named by the empty
    string: only a missing key gets the default.  A new-session event
    whose name is missing or empty gets the name "session_" followed by
    the time, and goose is started under that name. *)
Theorem session_name_defaults o s :
  (∀ m, truthy m →
     Web.spawned
       (Web.handle_message o (Web.SendMessage (Some m) None) s)
     = Web.spawned s
         ++ match popen o (Web.resume (u "default") m) with
            | PopenOk _ => [Web.resume (u "default") m]
            | PopenRaises _ => []
            end)
  ∧ (∀ m, truthy m →
     Web.spawned
       (Web.handle_message o (Web.SendMessage (Some m) (Some [])) s)
     = Web.spawned s
         ++ match popen o (Web.resume [] m) with
            | PopenOk _ => [Web.resume [] m]
            | PopenRaises _ => []
            end)
  ∧ (∀ data, default [] (Web.data_name data) = [] →
     let n := u "session_" ++ now o YmdHMS (Web.clock s) in
     Web.spawned (Web.handle_new_session o data s)
     = Web.spawned s
         ++ match popen o (start_cmd n) with
            | PopenOk _ => [start_cmd n]
            | PopenRaises _ => []
            end).
Proof.
  split; [|split].
  - intros m Hm. unfold Web.handle_message, Web.accept.
    cbn [Web.data_message Web.data_session default from_option id].
    destruct (truthy m); [|done]. cbn [negb]. unfold Web.run_goose.
    destruct (popen o _) as [e|process]; [cbn; by rewrite app_nil_r|].
    by rewrite web_read_lines.
  - intros m Hm. unfold Web.handle_message, Web.accept.
    cbn [Web.data_message Web.data_session default from_option id].
    destruct (truthy m); [|done]. cbn [negb]. unfold Web.run_goose.
    destruct (popen o _) as [e|process]; [cbn; by rewrite app_nil_r|].
    by rewrite web_read_lines.
  - intros data Hname n. unfold Web.handle_new_session, run, name_or_now.
    assert (or_else (Web.data_name data)
              (u "session_" ++ now o YmdHMS (Web.clock s)) = n) as ->.
    { unfold or_else. destruct (Web.data_name data) as [x|]; [|done].
      cbn in Hname. by rewrite Hname. }
    rewrite Hname. fold (start_cmd n).
    destruct (popen o (start_cmd n)) as [e|process];
      [cbn; by rewrite app_nil_r|].
    by destruct (10 <? duration process).
Qed.

Lemma session_name_defaults_witness :
  Web.spawned
    (Web.handle_message thinking_goose (Web.SendMessage (Some (u "hi")) None)
       (fresh_server (Sqlite.NoFile true)))
  = [Web.resume (u "default") (u "hi")].
Proof.
  apply (proj1 (session_name_defaults thinking_goose
                  (fresh_server (Sqlite.NoFile true))) (u "hi")).
  reflexivity.
Defined.

(** ** The history and the screen *)

Ltac on_screen :=
  repeat first
    [ apply sublist_nil | apply sublist_skip | apply sublist_cons ].

Lemma send_to_goose_shown o message_ a :
  appends_shown a (Tui.send_to_goose o message_ a).
Proof.
  right. unfold Tui.send_to_goose.
  destruct (truthy (strip message_)); cbn [negb].
  2:{ exists [], []. by rewrite !app_nil_r. }
  destruct (popen o _) as [e|process].
  - destruct e; eexists [_], [_; _; _];
      (split; [reflexivity|]);
      (split; [cbn; by rewrite <- !app_assoc|]); on_screen.
  - destruct (truthy (join _ _)), (negb _), (truthy (stderr process));
      first
        [ eexists [_; _], [_; _; _; _];
          (split; [cbn; by rewrite <- !app_assoc|]);
          (split; [cbn; by rewrite <- !app_assoc|]); on_screen
        | eexists [_; _], [_; _; _];
          (split; [cbn; by rewrite <- !app_assoc|]);
          (split; [cbn; by rewrite <- !app_assoc|]); on_screen ].
Qed.

Lemma appends_shown_sublist a a' :
  appends_shown a a' →
  shown <$> Tui.chat_history a `sublist_of` Tui.chat_messages a →
  shown <$> Tui.chat_history a' `sublist_of` Tui.chat_messages a'.
Proof.
  intros [->|(entries & bubbles & -> & -> & H)] Ha.
  - apply sublist_nil_l.
  - rewrite fmap_app. by apply sublist_app.
Qed.

Lemma notice_shown o t a : appends_shown a (Tui.add_system_message o t a).
Proof.
  right. eexists [], [_]. rewrite app_nil_r.
  split; [reflexivity|]. split; [reflexivity|]. on_screen.
Qed.

Lemma tui_step_shown o a a' : tui_step o a a' → appends_shown a a'.
Proof.
  assert (∀ a, appends_shown a (Tui.handle_send_message o a)) as Hsend.
  { intros a0. unfold Tui.handle_send_message.
    destruct (truthy _); [|right; exists [], []; by rewrite !app_nil_r].
    destruct (send_to_goose_shown o (strip (Tui.chat_input a0)) a0)
      as [H|H]; [by left | by right]. }
  assert (∀ a, appends_shown a a) as Hsame.
  { intros a0. right. exists [], []. by rewrite !app_nil_r. }
  intros [->|[e He]].
  - unfold Tui.on_mount.
    destruct (run o _ 5) as [child [e|result]].
    + right. destruct child, e; eexists [], [_; _];
        rewrite app_nil_r; (split; [reflexivity|]);
        (split; [cbn; by rewrite <- !app_assoc|]); on_screen.
    + left. apply start_new_session_history.
  - destruct e as [button_id|input_id|key]; cbn in He.
    + injection He as <-. unfold Tui.on_button_pressed.
      repeat case_bool_decide;
        first
          [ apply Hsend | apply notice_shown | apply Hsame
          | left; apply start_new_session_history
          | left; reflexivity
          | unfold Tui.action_save_session; destruct (truthy _);
            apply notice_shown
          | unfold Tui.action_show_history; destruct (Tui.chat_history a);
            apply notice_shown ].
    + injection He as <-. unfold Tui.on_input_submitted.
      case_bool_decide; [apply Hsend | apply Hsame].
    + unfold Tui.key_pressed in He.
      repeat case_bool_decide; try done; injection He as <-;
        first
          [ apply notice_shown | apply Hsame
          | left; apply start_new_session_history
          | unfold Tui.action_save_session; destruct (truthy _);
            apply notice_shown
          | unfold Tui.action_show_history; destruct (Tui.chat_history a);
            apply notice_shown ].
Qed.

(** X16: what the history counts is on the screen.  Whatever the user
    does, every entry of the chat history is shown by a bubble of the
    chat with its role, content and timestamp, in the order of the
    history. *)
Theorem history_is_on_screen o a a' :
  shown <$> Tui.chat_history a `sublist_of` Tui.chat_messages a →
  rtc (tui_step o) a a' →
  shown <$> Tui.chat_history a' `sublist_of` Tui.chat_messages a'.
Proof.
  intros H Hsteps. induction Hsteps as [|a1 a2 a3 Hstep _ IH]; [done|].
  apply IH. apply (appends_shown_sublist a1); [|done].
  by apply (tui_step_shown o).
Qed.

Lemma history_is_on_screen_witness :
  shown
    <$> Tui.chat_history
          (Tui.handle_send_message thinking_goose
             (Tui.with_input (u "hello") demo_app))
    `sublist_of`
    Tui.chat_messages
      (Tui.handle_send_message thinking_goose
         (Tui.with_input (u "hello") demo_app)).
Proof.
  apply (history_is_on_screen thinking_goose
           (Tui.with_input (u "hello") demo_app)).
  - apply sublist_nil.
  - apply rtc_once. right.
    by exists (Tui.InputSubmitted (u "chat-input")).
Defined.

(** ** Failures that are not shown *)

(** X17: what the terminal program does not report.  When goose exits
    with 0 its standard error is never shown, whatever it holds.  When
    goose prints no line and writes nothing to its standard error, the
    chat shows "Task completed (no output)" as the assistant's answer and
    no warning, whatever the exit code. *)
Theorem silent_failure_looks_like_success o message_ a process :
  truthy (strip message_) →
  popen o (Tui.command (Tui.current_session_name a) message_)
    = PopenOk process →
  let k := Tui.clock a in
  let answered text :=
    Tui.chat_messages a
      ++ [Tui.Bubble (u "user") (Tui.Str message_) (now o HMS k);
          Tui.Bubble (u "system") Tui.Thinking (now o HMS (1 + k));
          Tui.Bubble (u "assistant") (Tui.Str text) (now o HMS (2 + k))] in
  (returncode process = 0%Z →
   Tui.chat_messages (Tui.send_to_goose o message_ a)
   = answered (aggregated (stdout process)))
  ∧ (captured (stdout process) = [] → stderr process = [] →
     Tui.chat_messages (Tui.send_to_goose o message_ a)
     = answered Tui.no_output).
Proof.
  intros Hmessage Hpopen k answered.
  destruct (send_to_goose_completed o message_ a process Hmessage Hpopen)
    as [_ Hmessages].
  rewrite Hmessages. subst answered k. split.
  - intros Hcode. rewrite Hcode. cbn [Z.eqb negb andb].
    by rewrite app_nil_r.
  - intros Hnone Hquiet. unfold aggregated. rewrite Hnone, Hquiet.
    cbn [truthy]. rewrite andb_false_r. by rewrite app_nil_r.
Qed.

Lemma silent_failure_looks_like_success_witness :
  Tui.chat_messages
    (Tui.send_to_goose
       (Machine (λ _, PopenOk (Process [[10]] [] 1 3)) counting_clock)
       (u "hello") demo_app)
  = [Tui.Bubble (u "user") (Tui.Str (u "hello")) (u "t0");
     Tui.Bubble (u "system") Tui.Thinking (u "t1");
     Tui.Bubble (u "assistant") (Tui.Str Tui.no_output) (u "t2")].
Proof.
  apply (proj2 (silent_failure_looks_like_success
                  (Machine (λ _, PopenOk (Process [[10]] [] 1 3))
                     counting_clock)
                  (u "hello") demo_app (Process [[10]] [] 1 3) I eq_refl));
    reflexivity.
Defined.
